(** * The greeting lambda: hello_world and lambda_handler

  A shallow embedding of [components/sample-component/src/main.py].

  The program reads the process environment, builds a greeting with an
  f-string, prints it and returns a response whose body is produced by
  [json.dumps].  Python strings are sequences of Unicode code points, the
  process state (environment mapping and standard output, a text stream
  with its codec) is threaded through a small state-and-exception monad,
  and the parts of the [os] and [json] modules the handler and its tests
  call are embedded after CPython's [os], [json.encoder] and
  [json.decoder]. *)

From Stdlib Require Import NArith ZArith Ascii String List Lia.
From stdpp Require Import gmap strings list.

Local Open Scope N_scope.

(** * Python strings *)

Module Str.

(** A [str] is a sequence of code points; every code point of a real
    Python string is below [0x110000]. *)
Definition pystr : Type := list N.

Definition code_point (c : N) : Prop := c < 0x110000.
Definition wf (s : pystr) : Prop := Forall code_point s.

(** A string literal of the source, as code points. *)
Fixpoint lit (s : string) : pystr :=
  match s with
  | EmptyString => []
  | String a r => N_of_ascii a :: lit r
  end.

Definition is_high_surrogate (c : N) : bool := (0xd800 <=? c) && (c <=? 0xdbff).
Definition is_low_surrogate (c : N) : bool := (0xdc00 <=? c) && (c <=? 0xdfff).

(** Does a high surrogate stand immediately before a low surrogate? *)
Fixpoint has_surrogate_pair (s : pystr) : bool :=
  match s with
  | [] => false
  | c :: t =>
      match t with
      | [] => false
      | d :: _ => (is_high_surrogate c && is_low_surrogate d) || has_surrogate_pair t
      end
  end.

End Str.
Export Str.

(** * The process: environment, standard output, exceptions *)

Module Runtime.

(** The codec of a text stream and its error handler.  [Replacing] stands
    for the handlers that put something in the place of a character the
    codec lacks ([replace], [ignore], [backslashreplace],
    [xmlcharrefreplace], [namereplace]): they never fail. *)
Inductive codec : Type := ASCII | Latin_1 | UTF_8.
Inductive error_handler : Type := Strict | SurrogateEscape | Replacing.

(** A text stream such as [sys.stdout]: its codec, its error handler, and
    the text written to it so far. *)
Record TextIO : Type := mkTextIO {
  encoding : codec;
  errors : error_handler;
  written : pystr
}.

(** [os.environ], as the strings a lookup returns, and [sys.stdout]. *)
Record World : Type := mkWorld {
  environ : gmap string pystr;
  stdout : TextIO
}.

Inductive exn : Type :=
| AttributeError (name : string)
| UnicodeEncodeError
| TypeError (type_name : string)
| KeyError (key : pystr)
| ValueError
| OSError
| JSONDecodeError.

Inductive result (A : Type) : Type :=
| Ok (a : A)
| Raise (e : exn).
Arguments Ok {A} a.
Arguments Raise {A} e.

(** A Python computation: it may raise, and it may change the world. *)
Definition Py (A : Type) : Type := World -> result A * World.

Definition ret {A} (a : A) : Py A := fun w => (Ok a, w).
Definition raise {A} (e : exn) : Py A := fun w => (Raise e, w).
Definition bind {A B} (m : Py A) (k : A -> Py B) : Py B :=
  fun w =>
    match m w with
    | (Ok a, w') => k a w'
    | (Raise e, w') => (Raise e, w')
    end.

Declare Scope py_scope.
Delimit Scope py_scope with py.
Notation "x <- m ;; k" := (bind m (fun x => k))
  (at level 100, m at next level, right associativity) : py_scope.
Notation "m ;;; k" := (bind m (fun _ => k))
  (at level 100, right associativity) : py_scope.

(** [os.environ.get(key, default)] *)
Definition os_environ_get (key : string) (default : pystr) : Py pystr :=
  fun w => (Ok (match environ w !! key with Some v => v | None => default end), w).

(** ** Writing text *)

Definition is_surrogate (c : N) : bool := (0xd800 <=? c) && (c <=? 0xdfff).

(** The surrogates U+DC80..U+DCFF, which [surrogateescape] turns back
    into the bytes 0x80..0xFF. *)
Definition is_escaped_byte (c : N) : bool := (0xdc80 <=? c) && (c <=? 0xdcff).

Definition in_codec (e : codec) (c : N) : bool :=
  match e with
  | ASCII => c <? 0x80
  | Latin_1 => c <? 0x100
  | UTF_8 => negb (is_surrogate c)
  end.

Definition can_encode (e : codec) (h : error_handler) (c : N) : bool :=
  in_codec e c
  || match h with
     | Strict => false
     | SurrogateEscape => is_escaped_byte c
     | Replacing => true
     end.

(** Can the stream encode every character of the string? *)
Definition encodable (f : TextIO) (s : pystr) : bool :=
  forallb (can_encode (encoding f) (errors f)) s.

(** [sys.stdout.write(s)]: the text is encoded when it is written; a
    character the stream cannot encode raises [UnicodeEncodeError] and
    nothing of the string is written. *)
Definition TextIO_write (s : pystr) : Py unit :=
  fun w =>
    if encodable (stdout w) s
    then (Ok tt,
          {| environ := environ w;
             stdout := {| encoding := encoding (stdout w);
                          errors := errors (stdout w);
                          written := written (stdout w) ++ s |} |})
    else (Raise UnicodeEncodeError, w).

(** [print(s)]: the string, then the newline. *)
Definition print (s : pystr) : Py unit :=
  (TextIO_write s ;;; TextIO_write [10])%py.

(** ** The bytes of the environment

    On POSIX the environment holds bytes; [os.environ] encodes and decodes
    with the filesystem encoding, UTF-8 here, and the error handler
    [surrogateescape]. *)

Definition utf8_encode_char (c : N) : option (list N) :=
  if c <? 0x80 then Some [c]
  else if c <? 0x800 then Some [0xC0 + c / 64; 0x80 + c mod 64]
  else if is_surrogate c then
    if is_escaped_byte c then Some [c - 0xdc00] else None
  else if c <? 0x10000 then
    Some [0xE0 + c / 4096; 0x80 + c / 64 mod 64; 0x80 + c mod 64]
  else
    Some [0xF0 + c / 262144; 0x80 + c / 4096 mod 64; 0x80 + c / 64 mod 64; 0x80 + c mod 64].

(** [os.fsencode(s)]: [None] stands for [UnicodeEncodeError]. *)
Fixpoint fsencode (s : pystr) : option (list N) :=
  match s with
  | [] => Some []
  | c :: t =>
      match utf8_encode_char c, fsencode t with
      | Some b, Some bs => Some (b ++ bs)
      | _, _ => None
      end
  end.

Definition is_continuation (b : N) : bool := (0x80 <=? b) && (b <=? 0xBF).

(** The second byte of a three-byte sequence: no overlong form after
    0xE0, no surrogate after 0xED. *)
Definition second_of_3 (b0 b1 : N) : bool :=
  if b0 =? 0xE0 then (0xA0 <=? b1) && (b1 <=? 0xBF)
  else if b0 =? 0xED then (0x80 <=? b1) && (b1 <=? 0x9F)
  else is_continuation b1.

(** The second byte of a four-byte sequence: no overlong form after
    0xF0, nothing above U+10FFFF after 0xF4. *)
Definition second_of_4 (b0 b1 : N) : bool :=
  if b0 =? 0xF0 then (0x90 <=? b1) && (b1 <=? 0xBF)
  else if b0 =? 0xF4 then (0x80 <=? b1) && (b1 <=? 0x8F)
  else is_continuation b1.

(** [os.fsdecode(bs)]: UTF-8, and a byte that starts no valid sequence
    becomes the surrogate U+DC00 + byte. *)
Fixpoint fsdecode (bs : list N) : pystr :=
  match bs with
  | [] => []
  | b0 :: r0 =>
      if b0 <? 0x80 then b0 :: fsdecode r0
      else if (0xC2 <=? b0) && (b0 <=? 0xDF) then
        match r0 with
        | b1 :: r1 =>
            if is_continuation b1
            then ((b0 - 0xC0) * 64 + (b1 - 0x80)) :: fsdecode r1
            else (0xDC00 + b0) :: fsdecode r0
        | [] => (0xDC00 + b0) :: fsdecode r0
        end
      else if (0xE0 <=? b0) && (b0 <=? 0xEF) then
        match r0 with
        | b1 :: b2 :: r2 =>
            if second_of_3 b0 b1 && is_continuation b2
            then ((b0 - 0xE0) * 4096 + (b1 - 0x80) * 64 + (b2 - 0x80)) :: fsdecode r2
            else (0xDC00 + b0) :: fsdecode r0
        | _ => (0xDC00 + b0) :: fsdecode r0
        end
      else if (0xF0 <=? b0) && (b0 <=? 0xF4) then
        match r0 with
        | b1 :: b2 :: b3 :: r3 =>
            if second_of_4 b0 b1 && is_continuation b2 && is_continuation b3
            then ((b0 - 0xF0) * 262144 + (b1 - 0x80) * 4096 + (b2 - 0x80) * 64 + (b3 - 0x80))
                   :: fsdecode r3
            else (0xDC00 + b0) :: fsdecode r0
        | _ => (0xDC00 + b0) :: fsdecode r0
        end
      else (0xDC00 + b0) :: fsdecode r0
  end.

End Runtime.
Export Runtime.

(** * The [json] module: values, [dumps] and [loads] *)

Module Json.

(** The Python values the encoder and the decoder exchange: [None],
    booleans, integers, strings, lists, and dictionaries with string keys
    in insertion order. *)
#[warnings="-register-all"] Inductive pyval : Type :=
| PyNone
| PyBool (b : bool)
| PyInt (z : Z)
| PyStr (s : pystr)
| PyList (xs : list pyval)
| PyDict (items : list (pystr * pyval)).

(** ** Encoding ([json.encoder]) *)

Definition hex_digit (d : N) : N := if d <? 10 then 48 + d else 87 + d.

(** ['\\u{0:04x}'.format(n)] for [n < 0x10000] *)
Definition u_escape (n : N) : pystr :=
  [92; 117; hex_digit (n / 4096 mod 16); hex_digit (n / 256 mod 16);
   hex_digit (n / 16 mod 16); hex_digit (n mod 16)].

(** The regular expression [ESCAPE_ASCII]: a backslash, a double quote,
    or any character outside the range from space to tilde. *)
Definition ESCAPE_ASCII (c : N) : bool :=
  (c =? 92) || (c =? 34) || negb ((32 <=? c) && (c <=? 126)).

(** [replace(match)]: the table [ESCAPE_DCT] first, then [\uXXXX], and a
    surrogate pair for a code point outside the basic plane. *)
Definition replace (c : N) : pystr :=
  if c =? 92 then [92; 92]
  else if c =? 34 then [92; 34]
  else if c =? 8 then [92; 98]
  else if c =? 12 then [92; 102]
  else if c =? 10 then [92; 110]
  else if c =? 13 then [92; 114]
  else if c =? 9 then [92; 116]
  else if c <? 0x10000 then u_escape c
  else
    let n := c - 0x10000 in
    let s1 := N.lor 0xd800 (N.land (N.shiftr n 10) 0x3ff) in
    let s2 := N.lor 0xdc00 (N.land n 0x3ff) in
    u_escape s1 ++ u_escape s2.

Definition escape_char (c : N) : pystr :=
  if ESCAPE_ASCII c then replace c else [c].

(** [ESCAPE_ASCII.sub(replace, s)] *)
Definition escape (s : pystr) : pystr := flat_map escape_char s.

Definition py_encode_basestring_ascii (s : pystr) : pystr :=
  34 :: escape s ++ [34].

(** [int.__repr__]: decimal digits, most significant first. *)
Fixpoint decimal (fuel : nat) (n : N) (acc : pystr) : pystr :=
  match fuel with
  | O => acc
  | S fuel' =>
      let acc' := (48 + n mod 10) :: acc in
      if n <? 10 then acc' else decimal fuel' (n / 10) acc'
  end.

Definition int_repr (z : Z) : pystr :=
  (if (z <? 0)%Z then [45] else []) ++ decimal (S (N.size_nat (Z.abs_N z))) (Z.abs_N z) [].

(** [sep.join(parts)] *)
Fixpoint join (sep : pystr) (parts : list pystr) : pystr :=
  match parts with
  | [] => []
  | p :: ps =>
      match ps with
      | [] => p
      | _ :: _ => p ++ sep ++ join sep ps
      end
  end.

(** [json.dumps(o)] with its default arguments: [ensure_ascii=True],
    separators [', '] and [': '], no indentation, keys in dictionary
    order. *)
Fixpoint json_dumps (o : pyval) : pystr :=
  match o with
  | PyNone => lit "null"
  | PyBool b => if b then lit "true" else lit "false"
  | PyInt z => int_repr z
  | PyStr s => py_encode_basestring_ascii s
  | PyList xs => 91 :: join (lit ", ") (map json_dumps xs) ++ [93]
  | PyDict items =>
      123 :: join (lit ", ")
               (map (fun kv => py_encode_basestring_ascii (fst kv) ++ lit ": " ++ json_dumps (snd kv))
                    items)
          ++ [125]
  end.

(** ** Decoding ([json.decoder], [json.scanner]) *)

Definition hex_value (c : N) : option N :=
  if (48 <=? c) && (c <=? 57) then Some (c - 48)
  else if (97 <=? c) && (c <=? 102) then Some (c - 87)
  else if (65 <=? c) && (c <=? 70) then Some (c - 55)
  else None.

(** [_decode_uXXXX]: the four hexadecimal digits after [\u]. *)
Definition decode_uXXXX (cs : pystr) : option (N * pystr) :=
  match cs with
  | a :: b :: c :: d :: rest =>
      match hex_value a, hex_value b, hex_value c, hex_value d with
      | Some x3, Some x2, Some x1, Some x0 =>
          Some (((x3 * 16 + x2) * 16 + x1) * 16 + x0, rest)
      | _, _, _, _ => None
      end
  | _ => None
  end.

(** The table [BACKSLASH] of one-letter escapes. *)
Definition BACKSLASH (esc : N) : option N :=
  if esc =? 34 then Some 34
  else if esc =? 92 then Some 92
  else if esc =? 47 then Some 47
  else if esc =? 98 then Some 8
  else if esc =? 102 then Some 12
  else if esc =? 110 then Some 10
  else if esc =? 114 then Some 13
  else if esc =? 116 then Some 9
  else None.

(** [s[end:end + 2] == '\\u'] *)
Definition after_backslash_u (cs : pystr) : option pystr :=
  match cs with
  | [] => None
  | a :: r0 =>
      if a =? 92 then
        match r0 with
        | [] => None
        | b :: r => if b =? 117 then Some r else None
        end
      else None
  end.

(** One turn of the loop of [py_scanstring]: [None] when the string is
    malformed, [Some (None, rest)] at the closing quote, and
    [Some (Some c, rest)] for one decoded character.  A [\uXXXX] that is
    a high surrogate and is followed by a [\uXXXX] that is a low
    surrogate is joined with it into one code point. *)
Definition scan_chunk (cs : pystr) : option (option N * pystr) :=
  match cs with
  | [] => None
  | c :: r =>
      if c =? 34 then Some (None, r)
      else if c =? 92 then
        match r with
        | [] => None
        | esc :: r1 =>
            if esc =? 117 then
              match decode_uXXXX r1 with
              | None => None
              | Some (uni, r2) =>
                  match (if is_high_surrogate uni then after_backslash_u r2 else None) with
                  | Some r3 =>
                      match decode_uXXXX r3 with
                      | None => None
                      | Some (uni2, r4) =>
                          if is_low_surrogate uni2
                          then Some (Some (0x10000 + N.lor (N.shiftl (uni - 0xd800) 10)
                                                           (uni2 - 0xdc00)), r4)
                          else Some (Some uni, r2)
                      end
                  | None => Some (Some uni, r2)
                  end
              end
            else
              match BACKSLASH esc with
              | Some ch => Some (Some ch, r1)
              | None => None
              end
        end
      else if c <? 32 then None
      else Some (Some c, r)
  end.

Fixpoint scan_loop (fuel : nat) (cs : pystr) : option (pystr * pystr) :=
  match fuel with
  | O => None
  | S fuel' =>
      match scan_chunk cs with
      | None => None
      | Some (None, r) => Some ([], r)
      | Some (Some ch, r) =>
          match scan_loop fuel' r with
          | Some (s, r') => Some (ch :: s, r')
          | None => None
          end
      end
  end.

(** [py_scanstring(s, end)] in strict mode, entered after the opening
    quote: the decoded string and what follows the closing quote.  Every
    turn of the loop consumes a character, so the length of the input
    bounds the number of turns. *)
Definition py_scanstring (cs : pystr) : option (pystr * pystr) :=
  scan_loop (length cs) cs.

Definition is_ws (c : N) : bool := (c =? 32) || (c =? 9) || (c =? 10) || (c =? 13).

(** [WHITESPACE.match(s, end).end()] *)
Fixpoint skip_ws (cs : pystr) : pystr :=
  match cs with
  | [] => []
  | c :: r => if is_ws c then skip_ws r else cs
  end.

Definition is_digit (c : N) : bool := (48 <=? c) && (c <=? 57).

Fixpoint digits_value (acc : N) (cs : pystr) : N * pystr :=
  match cs with
  | [] => (acc, [])
  | c :: r => if is_digit c then digits_value (acc * 10 + (c - 48)) r else (acc, cs)
  end.

(** The integer part of [NUMBER_RE]: an optional minus sign, then a
    single zero or a nonzero digit followed by digits. *)
Definition match_integer (cs : pystr) : option (Z * pystr) :=
  let '(neg, r) :=
    match cs with
    | c :: r => if c =? 45 then (true, r) else (false, cs)
    | [] => (false, cs)
    end in
  match r with
  | [] => None
  | d :: r1 =>
      if d =? 48 then Some (0%Z, r1)
      else if is_digit d then
        let '(n, r2) := digits_value (d - 48) r1 in
        Some (if neg then (- Z.of_N n)%Z else Z.of_N n, r2)
      else None
  end.

(** Does [NUMBER_RE] go on with a fraction or an exponent?  Such a token
    is a float, which [pyval] does not have. *)
Definition float_tail (cs : pystr) : bool :=
  match cs with
  | c :: d :: r =>
      if c =? 46 then is_digit d
      else if (c =? 101) || (c =? 69) then
        is_digit d
        || (((d =? 43) || (d =? 45)) && match r with e :: _ => is_digit e | [] => false end)
      else false
  | _ => false
  end.

Fixpoint strip_prefix (p cs : pystr) : option pystr :=
  match p with
  | [] => Some cs
  | a :: p' =>
      match cs with
      | [] => None
      | c :: r => if a =? c then strip_prefix p' r else None
      end
  end.

(** [dict(pairs)]: a repeated key keeps its first place and takes the
    last value. *)
Fixpoint dict_set (d : list (pystr * pyval)) (k : pystr) (v : pyval) : list (pystr * pyval) :=
  match d with
  | [] => [(k, v)]
  | (k', v') :: d' =>
      if decide (k' = k) then (k', v) :: d' else (k', v') :: dict_set d' k v
  end.

Definition dict_of_pairs (pairs : list (pystr * pyval)) : list (pystr * pyval) :=
  fold_left (fun d kv => dict_set d (fst kv) (snd kv)) pairs [].

Section Containers.

(** The scanner for the values inside a container ([scan_once]). *)
Variable scan : pystr -> option (pyval * pystr).

(** The loop of [JSONObject], entered after the opening quote of a key:
    key, colon, value, then a closing brace or a comma and the next
    key.  White space is allowed around every token. *)
Fixpoint object_members (fuel : nat) (cs : pystr) (pairs : list (pystr * pyval))
  : option (pyval * pystr) :=
  match fuel with
  | O => None
  | S fuel' =>
      match py_scanstring cs with
      | None => None
      | Some (key, r) =>
          match skip_ws r with
          | [] => None
          | c :: r1 =>
              if negb (c =? 58) then None
              else
                match scan (skip_ws r1) with
                | None => None
                | Some (value, r2) =>
                    let pairs := pairs ++ [(key, value)] in
                    match skip_ws r2 with
                    | [] => None
                    | c2 :: r3 =>
                        if c2 =? 125 then Some (PyDict (dict_of_pairs pairs), r3)
                        else if c2 =? 44 then
                          match skip_ws r3 with
                          | [] => None
                          | c3 :: r4 =>
                              if c3 =? 34 then object_members fuel' r4 pairs else None
                          end
                        else None
                    end
                end
          end
      end
  end.

(** [JSONObject], entered after the opening brace. *)
Definition JSONObject (fuel : nat) (cs : pystr) : option (pyval * pystr) :=
  match skip_ws cs with
  | [] => None
  | c :: r =>
      if c =? 125 then Some (PyDict [], r)
      else if c =? 34 then object_members fuel r []
      else None
  end.

(** The loop of [JSONArray]: value, then a closing bracket or a comma. *)
Fixpoint array_elements (fuel : nat) (cs : pystr) (values : list pyval)
  : option (pyval * pystr) :=
  match fuel with
  | O => None
  | S fuel' =>
      match scan cs with
      | None => None
      | Some (value, r) =>
          let values := values ++ [value] in
          match skip_ws r with
          | [] => None
          | c :: r1 =>
              if c =? 93 then Some (PyList values, r1)
              else if c =? 44 then array_elements fuel' (skip_ws r1) values
              else None
          end
      end
  end.

(** [JSONArray], entered after the opening bracket. *)
Definition JSONArray (fuel : nat) (cs : pystr) : option (pyval * pystr) :=
  match skip_ws cs with
  | [] => None
  | c :: r => if c =? 93 then Some (PyList [], r) else array_elements fuel (c :: r) []
  end.

End Containers.

(** [_scan_once(string, idx)]: one JSON value and the rest of the input.
    The fuel bounds the nesting depth and the number of members of a
    container; [json_loads] starts it above the length of the text. *)
Fixpoint scan_once (fuel : nat) (cs : pystr) : option (pyval * pystr) :=
  match fuel with
  | O => None
  | S fuel' =>
      match cs with
      | [] => None
      | c :: r =>
          if c =? 34 then
            match py_scanstring r with
            | Some (s, r') => Some (PyStr s, r')
            | None => None
            end
          else if c =? 123 then JSONObject (scan_once fuel') fuel' r
          else if c =? 91 then JSONArray (scan_once fuel') fuel' r
          else
            match strip_prefix (lit "null") cs with
            | Some r' => Some (PyNone, r')
            | None =>
            match strip_prefix (lit "true") cs with
            | Some r' => Some (PyBool true, r')
            | None =>
            match strip_prefix (lit "false") cs with
            | Some r' => Some (PyBool false, r')
            | None =>
            match match_integer cs with
            | Some (z, r') => if float_tail r' then None else Some (PyInt z, r')
            | None => None
            end end end end
      end
  end.

(** [json.loads(s)]: leading white space, one value, trailing white
    space, and nothing else.  [None] stands for [JSONDecodeError] (and for
    a float, which is outside [pyval]). *)
Definition json_loads (s : pystr) : option pyval :=
  match scan_once (S (length s)) (skip_ws s) with
  | None => None
  | Some (obj, r) =>
      match skip_ws r with
      | [] => Some obj
      | _ :: _ => None
      end
  end.

End Json.
Export Json.

(** * Objects and their attributes *)

Module Objects.

(** A Python object, as far as [json.dumps] tells objects apart: a value
    the encoder has a case for ([None], a boolean, an integer, a string, a
    list, a dictionary with string keys), or an object of another type
    (bytes, a set, an instance of a class), known by the name of its type.
    Floats and dictionaries with other keys are not represented. *)
Inductive pyany : Type :=
| Json (v : pyval)
| Opaque (type_name : string).

(** An object with attributes is its attribute dictionary. *)
Record pyobject : Type := mkObject { attrs : gmap string pyany }.

(** [obj.name] *)
Definition getattr (obj : pyobject) (name : string) : Py pyany :=
  match attrs obj !! name with
  | Some v => ret v
  | None => raise (AttributeError name)
  end.

(** The items of a dictionary display as the encoder meets them: the
    name of the type of the first value it has no case for, or the items as
    JSON values. *)
Fixpoint serializable (items : list (pystr * pyany)) : string + list (pystr * pyval) :=
  match items with
  | [] => inr []
  | (k, Opaque t) :: _ => inl t
  | (k, Json v) :: rest =>
      match serializable rest with
      | inl t => inl t
      | inr kvs => inr ((k, v) :: kvs)
      end
  end.

(** [json.dumps({k1: o1, ...})] for arbitrary objects [o1], ...: the
    encoder raises [TypeError] for an object it has no case for, and no
    text is returned. *)
Definition dumps (items : list (pystr * pyany)) : Py pystr :=
  match serializable items with
  | inr kvs => ret (json_dumps (PyDict kvs))
  | inl t => raise (TypeError t)
  end.

End Objects.
Export Objects.

(** * The program *)

Module Main.

Local Open Scope py_scope.

(** The dictionary the handler returns: an integer under ['statusCode']
    and a string under ['body']. *)
Record response : Type := mkResponse {
  statusCode : Z;
  body : pystr
}.

(** [hello_world()] (main.py, lines 4-7): read [ENVIRONMENT] with the
    default ['unknown'] and format the f-string around it. *)
Definition hello_world : Py pystr :=
  environment <- os_environ_get "ENVIRONMENT" (lit "unknown") ;;
  ret (lit "Hello World from " ++ environment ++ lit " environment!").

(** [lambda_handler(event, context)] (main.py, lines 9-22): build the
    message, print it, then build the response; [context.function_name] is
    read while the argument of [json.dumps] is built, after the print, and
    [json.dumps] runs last.  The event is of any type and is not used. *)
Definition lambda_handler {Event : Type} (event : Event) (context : pyobject) : Py response :=
  message <- hello_world ;;
  print message ;;;
  function_name <- getattr context "function_name" ;;
  text <- dumps [(lit "message", Json (PyStr message));
                 (lit "function_name", function_name)] ;;
  ret {| statusCode := 200; body := text |}.

End Main.
Export Main.

(** * Notions used in the statements and proofs *)

Module Notions.

(** The two halves [replace] writes for a code point outside the basic
    plane. *)
Definition high_half (c : N) : N := N.lor 0xd800 (N.land (N.shiftr (c - 0x10000) 10) 0x3ff).
Definition low_half (c : N) : N := N.lor 0xdc00 (N.land (c - 0x10000) 0x3ff).

(** After a high surrogate: would the decoder join it with the escape
    that follows, or fail on it? *)
Definition joins (tail : pystr) : bool :=
  match after_backslash_u tail with
  | None => false
  | Some r3 =>
      match decode_uXXXX r3 with
      | Some (u, _) => is_low_surrogate u
      | None => true
      end
  end.

Definition starts_low (s : pystr) : bool :=
  match s with
  | [] => false
  | d :: _ => is_low_surrogate d
  end.

(** The four shapes of an encoded character. *)
Inductive escaped (c : N) : pystr -> Prop :=
| esc_plain : c <> 34 -> c <> 92 -> 32 <= c -> escaped c [c]
| esc_letter e : e <> 117 -> BACKSLASH e = Some c -> escaped c [92; e]
| esc_u : c < 65536 -> escaped c (u_escape c)
| esc_pair : 65536 <= c -> escaped c (u_escape (high_half c) ++ u_escape (low_half c)).

(** The text [json_dumps] writes for [{k1: s1, k2: s2}]. *)
Definition two_fields_text (k1 s1 k2 s2 : pystr) : pystr :=
  123 :: 34 :: escape k1 ++ 34 :: 58 :: 32 :: 34 :: escape s1 ++ 34 ::
    44 :: 32 :: 34 :: escape k2 ++ 34 :: 58 :: 32 :: 34 :: escape s2 ++ [34; 125].

(** The greeting for a value of the configuration variable. *)
Definition greeting (v : pystr) : pystr :=
  lit "Hello World from " ++ v ++ lit " environment!".

Definition configured (w : World) : pystr :=
  match environ w !! "ENVIRONMENT"%string with
  | Some v => v
  | None => lit "unknown"
  end.

(** The world after [print(message)], when the stream takes the message. *)
Definition logged (w : World) : World :=
  {| environ := environ w;
     stdout := {| encoding := encoding (stdout w);
                  errors := errors (stdout w);
                  written := written (stdout w) ++ greeting (configured w) ++ [10] |} |}.

(** ** Sample worlds and contexts *)

(** A fresh standard output with the codec UTF-8 and the handler [strict]. *)
Definition utf8_strict : TextIO := {| encoding := UTF_8; errors := Strict; written := [] |}.

Definition world_with (v : pystr) : World :=
  {| environ := {[ "ENVIRONMENT"%string := v ]}; stdout := utf8_strict |}.

Definition world_unset : World := {| environ := ∅; stdout := utf8_strict |}.

(** [ENVIRONMENT] holds U+00E9 and the lone surrogate U+DC80, and
    standard output has the codec UTF-8 with the handler
    [surrogateescape]. *)
Definition world_escaping : World :=
  {| environ := {[ "ENVIRONMENT"%string := [0xe9; 0xdc80] ]};
     stdout := {| encoding := UTF_8; errors := SurrogateEscape; written := [] |} |}.


Definition context_named (fn : pystr) : pyobject :=
  {| attrs := {[ "function_name"%string := Json (PyStr fn) ]} |}.


End Notions.
Export Notions.

(** * The test module *)

Module Tests.

(** What ends a test before its last line: a failed assertion, which
    [unittest] reports as a failure, or any other exception, of the code
    under test or of the test's own expressions, which it reports as an
    error. *)
Inductive failure : Type :=
| AssertionError
| Error (e : exn).

Inductive outcome (A : Type) : Type :=
| Passed (a : A)
| Failed (f : failure).
Arguments Passed {A} a.
Arguments Failed {A} f.

Definition Test (A : Type) : Type := World -> outcome A * World.

Definition tret {A} (a : A) : Test A := fun w => (Passed a, w).
Definition tfail {A} (f : failure) : Test A := fun w => (Failed f, w).
Definition tbind {A B} (m : Test A) (k : A -> Test B) : Test B :=
  fun w =>
    match m w with
    | (Passed a, w') => k a w'
    | (Failed f, w') => (Failed f, w')
    end.

(** A call into the code under test: what it raises ends the test. *)
Definition call {A} (m : Py A) : Test A :=
  fun w =>
    match m w with
    | (Ok a, w') => (Passed a, w')
    | (Raise e, w') => (Failed (Error e), w')
    end.

Declare Scope test_scope.
Delimit Scope test_scope with test.
Notation "x <- m ;; k" := (tbind m (fun x => k))
  (at level 100, m at next level, right associativity) : test_scope.
Notation "m ;;; k" := (tbind m (fun _ => k))
  (at level 100, right associativity) : test_scope.

(** Does the name, or the value, hold a NUL? *)
Definition has_nul (s : pystr) : bool := existsb (N.eqb 0) s.

(** Does the name hold an equals sign? *)
Definition has_equals (s : pystr) : bool := existsb (N.eqb 61) s.

(** [os.environ[key] = value]: the value is encoded, which raises
    [UnicodeEncodeError] for a surrogate that escapes no byte; a NUL in the
    name or the value and an equals sign in the name raise [ValueError]; an
    empty name is refused by the system, [OSError].  A later lookup decodes
    the stored bytes. *)
Definition os_environ_set (key : string) (value : pystr) : Test unit :=
  fun w =>
    match fsencode value with
    | None => (Failed (Error UnicodeEncodeError), w)
    | Some bytes =>
        if has_nul (lit key) || has_nul value || has_equals (lit key)
        then (Failed (Error ValueError), w)
        else if bool_decide (key = ""%string) then (Failed (Error OSError), w)
        else (Passed tt,
              {| environ := <[key := fsdecode bytes]> (environ w); stdout := stdout w |})
    end.

Fixpoint startswith (p s : pystr) : bool :=
  match p with
  | [] => true
  | a :: p' =>
      match s with
      | [] => false
      | c :: s' => (a =? c) && startswith p' s'
      end
  end.

(** [needle in hay] for two strings. *)
Fixpoint substring (needle hay : pystr) : bool :=
  startswith needle hay
  || match hay with
     | [] => false
     | _ :: t => substring needle t
     end.

(** [member in container] for a string [member]: a substring of a string,
    a key of a dictionary, an element of a list; the other values are not
    containers, [Error] with the name of their type. *)
Definition py_in (member : pystr) (container : pyval) : string + bool :=
  match container with
  | PyStr s => inr (substring member s)
  | PyDict items => inr (existsb (fun kv => bool_decide (fst kv = member)) items)
  | PyList xs =>
      inr (existsb (fun x => match x with PyStr s => bool_decide (s = member) | _ => false end) xs)
  | PyNone => inl "NoneType"%string
  | PyBool _ => inl "bool"%string
  | PyInt _ => inl "int"%string
  end.

(** [self.assertIn(member, container)] *)
Definition assertIn (member : pystr) (container : pyval) : Test unit :=
  match py_in member container with
  | inr true => tret tt
  | inr false => tfail AssertionError
  | inl t => tfail (Error (TypeError t))
  end.

(** [self.assertEqual(first, second)] for integers. *)
Definition assertEqual_int (first second : Z) : Test unit :=
  if (first =? second)%Z then tret tt else tfail AssertionError.

(** [self.assertEqual(first, second)] for a value and a string. *)
Definition assertEqual_str (first : pyval) (second : pystr) : Test unit :=
  match first with
  | PyStr s => if bool_decide (s = second) then tret tt else tfail AssertionError
  | _ => tfail AssertionError
  end.

Fixpoint dict_get (items : list (pystr * pyval)) (key : pystr) : option pyval :=
  match items with
  | [] => None
  | (k, v) :: rest => if bool_decide (k = key) then Some v else dict_get rest key
  end.

(** [container[key]] for a string [key]: only a dictionary has string
    subscripts. *)
Definition subscript (container : pyval) (key : pystr) : Test pyval :=
  match container with
  | PyDict items =>
      match dict_get items key with
      | Some v => tret v
      | None => tfail (Error (KeyError key))
      end
  | PyStr _ => tfail (Error (TypeError "str"))
  | PyList _ => tfail (Error (TypeError "list"))
  | PyNone => tfail (Error (TypeError "NoneType"))
  | PyBool _ => tfail (Error (TypeError "bool"))
  | PyInt _ => tfail (Error (TypeError "int"))
  end.

(** [json.loads(s)] inside a test. *)
Definition loads (s : pystr) : Test pyval :=
  match json_loads s with
  | Some v => tret v
  | None => tfail (Error JSONDecodeError)
  end.

(** An instance of [class MockContext: function_name = "test-function"]. *)
Definition MockContext : pyobject :=
  {| attrs := {[ "function_name"%string := Json (PyStr (lit "test-function")) ]} |}.

Local Open Scope test_scope.

(** [TestMain.test_hello_world] (test_main.py, lines 13-21) *)
Definition test_hello_world : Test unit :=
  os_environ_set "ENVIRONMENT" (lit "test") ;;;
  result <- call hello_world ;;
  assertIn (lit "Hello World") (PyStr result) ;;;
  assertIn (lit "test environment") (PyStr result).

(** [TestMain.test_lambda_handler] (test_main.py, lines 23-42); the event
    is the empty dictionary. *)
Definition test_lambda_handler : Test unit :=
  os_environ_set "ENVIRONMENT" (lit "test") ;;;
  response <- call (lambda_handler (PyDict []) MockContext) ;;
  assertEqual_int (statusCode response) 200 ;;;
  body <- loads (body response) ;;
  assertIn (lit "message") body ;;;
  assertIn (lit "function_name") body ;;;
  name <- subscript body (lit "function_name") ;;
  assertEqual_str name (lit "test-function").

End Tests.
Export Tests.

(** * Strings the environment stores unchanged *)

Module EnvNotions.




End EnvNotions.
Export EnvNotions.

(** * Notions of the further properties *)

Module MoreNotions.

(** The code point the decoder makes of a high and a low surrogate. *)
Definition join_surrogates (h l : N) : N :=
  0x10000 + N.lor (N.shiftl (h - 0xd800) 10) (l - 0xdc00).

(** A string with every high surrogate that stands immediately before a
    low surrogate joined with it, from left to right. *)
Fixpoint join_pairs (s : pystr) : pystr :=
  match s with
  | [] => []
  | c :: t =>
      match t with
      | [] => [c]
      | d :: t' =>
          if is_high_surrogate c && is_low_surrogate d
          then join_surrogates c d :: join_pairs t'
          else c :: join_pairs t
      end
  end.

(** The printable ASCII characters, space to tilde. *)
Definition printable (c : N) : Prop := 32 <= c <= 126.

(** The object [lambda_handler] serializes, and what a parse gives back. *)
Definition payload (message function_name : pystr) : pyval :=
  PyDict [(lit "message", PyStr message); (lit "function_name", PyStr function_name)].

End MoreNotions.
Export MoreNotions.

(** * Facts about the [json] embedding *)

Module JsonFacts.

(** Decide the comparisons in the goal by linear arithmetic. *)
Ltac ncases :=
  repeat match goal with
  | |- context [?a =? ?b] => destruct (N.eqb_spec a b); try lia
  | |- context [?a <=? ?b] => destruct (N.leb_spec a b); try lia
  | |- context [?a <? ?b] => destruct (N.ltb_spec a b); try lia
  end.

Lemma hex_value_digit (d : N) : d < 16 -> hex_value (hex_digit d) = Some d.
Proof.
  intros Hd. unfold hex_digit, hex_value.
  destruct (N.ltb_spec d 10); ncases; simpl; f_equal; lia.
Qed.

Lemma base16 (n : N) :
  n < 65536 ->
  ((n / 4096 mod 16 * 16 + n / 256 mod 16) * 16 + n / 16 mod 16) * 16 + n mod 16 = n.
Proof.
  intros Hn.
  pose proof (N.div_mod n 16 ltac:(lia)).
  pose proof (N.div_mod (n / 16) 16 ltac:(lia)).
  pose proof (N.div_mod (n / 16 / 16) 16 ltac:(lia)).
  pose proof (N.mod_lt n 16 ltac:(lia)).
  pose proof (N.mod_lt (n / 16) 16 ltac:(lia)).
  pose proof (N.mod_lt (n / 16 / 16) 16 ltac:(lia)).
  replace (n / 256) with (n / 16 / 16) by (rewrite N.Div0.div_div; reflexivity).
  replace (n / 4096) with (n / 16 / 16 / 16) by (rewrite !N.Div0.div_div; reflexivity).
  assert (n / 16 / 16 / 16 < 16).
  { rewrite !N.Div0.div_div. apply N.Div0.div_lt_upper_bound. simpl. lia. }
  rewrite (N.mod_small (n / 16 / 16 / 16) 16) by assumption.
  pose proof (N.div_mod (n / 16 / 16) 16 ltac:(lia)).
  lia.
Qed.

Lemma decode_u_escape (n : N) (rest : pystr) :
  n < 65536 ->
  decode_uXXXX (skipn 2 (u_escape n) ++ rest) = Some (n, rest).
Proof.
  intros Hn. cbn [u_escape skipn app decode_uXXXX].
  rewrite !hex_value_digit by (apply N.mod_lt; lia).
  rewrite base16 by assumption. reflexivity.
Qed.

(** ** The bit arithmetic of surrogate pairs *)

Lemma lor_high_low (h l : N) : l < 1024 -> N.lor (h * 1024) l = h * 1024 + l.
Proof.
  intros Hl.
  assert (Hand : N.land (h * 2 ^ 10) l = 0).
  { apply N.bits_inj_0. intros m. rewrite N.land_spec.
    destruct (N.lt_ge_cases m 10) as [Hm | Hm].
    - rewrite N.mul_pow2_bits_low by assumption. reflexivity.
    - rewrite <- (N.mod_small l (2 ^ 10)) by (simpl; lia).
      rewrite N.mod_pow2_bits_high by assumption. apply andb_false_r. }
  change 1024 with (2 ^ 10).
  rewrite N.add_nocarry_lxor by assumption.
  apply eq_sym, N.lxor_lor. assumption.
Qed.

Lemma land_10_bits (n : N) : N.land n 0x3ff = n mod 1024.
Proof. change 0x3ff with (N.ones 10). rewrite N.land_ones. reflexivity. Qed.

Lemma shiftr_10 (n : N) : N.shiftr n 10 = n / 1024.
Proof. rewrite N.shiftr_div_pow2. reflexivity. Qed.

Lemma shiftl_10 (n : N) : N.shiftl n 10 = n * 1024.
Proof. rewrite N.shiftl_mul_pow2. reflexivity. Qed.

Lemma high_half_eq (c : N) :
  0x10000 <= c < 0x110000 -> high_half c = 0xd800 + (c - 0x10000) / 1024.
Proof.
  intros Hc. unfold high_half. rewrite land_10_bits, shiftr_10.
  assert ((c - 0x10000) / 1024 < 1024) by (apply N.Div0.div_lt_upper_bound; lia).
  rewrite N.mod_small by assumption.
  change 0xd800 with (54 * 1024). apply lor_high_low. assumption.
Qed.

Lemma low_half_eq (c : N) : low_half c = 0xdc00 + (c - 0x10000) mod 1024.
Proof.
  unfold low_half. rewrite land_10_bits.
  change 0xdc00 with (55 * 1024). apply lor_high_low. apply N.mod_lt. lia.
Qed.

Lemma join_halves (c : N) :
  0x10000 <= c < 0x110000 ->
  0x10000 + N.lor (N.shiftl (high_half c - 0xd800) 10) (low_half c - 0xdc00) = c.
Proof.
  intros Hc. rewrite high_half_eq, low_half_eq by assumption.
  pose proof (N.mod_lt (c - 0x10000) 1024 ltac:(lia)).
  pose proof (N.div_mod (c - 0x10000) 1024 ltac:(lia)).
  rewrite (N.add_comm 0xd800), N.add_sub, (N.add_comm 0xdc00), N.add_sub.
  rewrite shiftl_10, lor_high_low by assumption.
  revert H H0. generalize ((c - 0x10000) / 1024), ((c - 0x10000) mod 1024). lia.
Qed.

Lemma high_half_surrogate (c : N) :
  0x10000 <= c < 0x110000 ->
  is_high_surrogate (high_half c) = true /\ is_low_surrogate (high_half c) = false.
Proof.
  intros Hc. rewrite high_half_eq by assumption.
  assert (Hq : (c - 0x10000) / 1024 < 1024) by (apply N.Div0.div_lt_upper_bound; lia).
  revert Hq. generalize ((c - 0x10000) / 1024). intros q Hq.
  unfold is_high_surrogate, is_low_surrogate. split; ncases; reflexivity.
Qed.

Lemma low_half_surrogate (c : N) : is_low_surrogate (low_half c) = true.
Proof.
  rewrite low_half_eq.
  pose proof (N.mod_lt (c - 0x10000) 1024 ltac:(lia)) as Hr.
  revert Hr. generalize ((c - 0x10000) mod 1024). intros r Hr.
  unfold is_low_surrogate. ncases; reflexivity.
Qed.

(** ** The string scanner always has fuel enough *)

Lemma decode_uXXXX_length (cs r : pystr) (u : N) :
  decode_uXXXX cs = Some (u, r) -> length cs = (4 + length r)%nat.
Proof.
  unfold decode_uXXXX. destruct cs as [| a [| b [| c [| d rest]]]]; try discriminate.
  destruct (hex_value a), (hex_value b), (hex_value c), (hex_value d); try discriminate.
  intros [= _ <-]. reflexivity.
Qed.

Lemma after_backslash_u_length (cs r : pystr) :
  after_backslash_u cs = Some r -> length cs = (2 + length r)%nat.
Proof.
  unfold after_backslash_u. destruct cs as [| a [| b rest]]; try discriminate.
  - destruct (a =? 92); discriminate.
  - destruct (a =? 92), (b =? 117); try discriminate. intros [= <-]. reflexivity.
Qed.

(** Every turn of the loop consumes at least one character. *)
Lemma scan_chunk_consumes (cs r : pystr) (x : option N) :
  scan_chunk cs = Some (x, r) -> (length r < length cs)%nat.
Proof.
  unfold scan_chunk. destruct cs as [| c cs]; [discriminate |].
  destruct (c =? 34); [intros [= _ <-]; cbn; lia |].
  destruct (c =? 92).
  - destruct cs as [| esc r1]; [discriminate |].
    destruct (esc =? 117).
    + destruct (decode_uXXXX r1) as [[uni r2] |] eqn:H1; [| discriminate].
      apply decode_uXXXX_length in H1.
      destruct (if is_high_surrogate uni then after_backslash_u r2 else None)
        as [r3 |] eqn:H2.
      * destruct (is_high_surrogate uni); [| discriminate].
        apply after_backslash_u_length in H2.
        destruct (decode_uXXXX r3) as [[uni2 r4] |] eqn:H3; [| discriminate].
        apply decode_uXXXX_length in H3.
        destruct (is_low_surrogate uni2); intros [= _ <-]; cbn [length]; lia.
      * intros [= _ <-]. cbn [length]. lia.
    + destruct (BACKSLASH esc); [| discriminate]. intros [= _ <-]. cbn [length]. lia.
  - destruct (c <? 32); [discriminate |]. intros [= _ <-]. cbn [length]. lia.
Qed.

(** More fuel than the length of the input changes nothing, so
    [py_scanstring] fails only where [scan_chunk] does. *)
Lemma scan_loop_enough (fuel : nat) :
  forall cs : pystr, (length cs <= fuel)%nat -> scan_loop fuel cs = scan_loop (length cs) cs.
Proof.
  induction fuel as [fuel IH] using lt_wf_ind. intros cs Hlen.
  destruct cs as [| c cs]; [destruct fuel; reflexivity |].
  destruct fuel as [| fuel]; [cbn [length] in Hlen; lia |].
  cbn [length scan_loop].
  destruct (scan_chunk (c :: cs)) as [[[ch |] r] |] eqn:Hchunk; try reflexivity.
  apply scan_chunk_consumes in Hchunk. cbn [length] in Hchunk, Hlen.
  rewrite (IH fuel) by lia. rewrite (IH (length cs)) by lia. reflexivity.
Qed.

(** ** Scanning what the encoder wrote *)

Lemma scan_chunk_backslash_u (r1 : pystr) :
  scan_chunk (92 :: 117 :: r1) =
  match decode_uXXXX r1 with
  | None => None
  | Some (uni, r2) =>
      match (if is_high_surrogate uni then after_backslash_u r2 else None) with
      | Some r3 =>
          match decode_uXXXX r3 with
          | None => None
          | Some (uni2, r4) =>
              if is_low_surrogate uni2
              then Some (Some (0x10000 + N.lor (N.shiftl (uni - 0xd800) 10) (uni2 - 0xdc00)), r4)
              else Some (Some uni, r2)
          end
      | None => Some (Some uni, r2)
      end
  end.
Proof. reflexivity. Qed.

Lemma u_escape_app (n : N) (tail : pystr) :
  u_escape n ++ tail = 92 :: 117 :: (skipn 2 (u_escape n) ++ tail).
Proof. reflexivity. Qed.

Lemma scan_chunk_u_escape (n : N) (tail : pystr) :
  n < 65536 ->
  (is_high_surrogate n = true -> joins tail = false) ->
  scan_chunk (u_escape n ++ tail) = Some (Some n, tail).
Proof.
  intros Hn Hj. rewrite u_escape_app, scan_chunk_backslash_u, decode_u_escape by assumption.
  destruct (is_high_surrogate n); [| reflexivity].
  specialize (Hj eq_refl). unfold joins in Hj.
  destruct (after_backslash_u tail) as [r3 |]; [| reflexivity].
  destruct (decode_uXXXX r3) as [[u r4] |]; [| discriminate].
  rewrite Hj. reflexivity.
Qed.

Lemma high_half_bound (c : N) : 0x10000 <= c < 0x110000 -> high_half c < 65536.
Proof.
  intros Hc. rewrite high_half_eq by assumption.
  assert (Hq : (c - 0x10000) / 1024 < 1024) by (apply N.Div0.div_lt_upper_bound; lia).
  revert Hq. generalize ((c - 0x10000) / 1024). lia.
Qed.

Lemma low_half_bound (c : N) : low_half c < 65536.
Proof.
  rewrite low_half_eq.
  pose proof (N.mod_lt (c - 0x10000) 1024 ltac:(lia)) as Hr.
  revert Hr. generalize ((c - 0x10000) mod 1024). lia.
Qed.

Lemma scan_chunk_pair (c : N) (tail : pystr) :
  0x10000 <= c < 0x110000 ->
  scan_chunk (u_escape (high_half c) ++ u_escape (low_half c) ++ tail) = Some (Some c, tail).
Proof.
  intros Hc.
  rewrite u_escape_app, scan_chunk_backslash_u, decode_u_escape by (apply high_half_bound, Hc).
  destruct (high_half_surrogate c Hc) as [-> _].
  rewrite u_escape_app. cbn [after_backslash_u]. rewrite !N.eqb_refl.
  rewrite decode_u_escape by apply low_half_bound.
  rewrite low_half_surrogate, join_halves by assumption. reflexivity.
Qed.

Lemma escape_char_escaped (c : N) : escaped c (escape_char c).
Proof.
  unfold escape_char, ESCAPE_ASCII, replace.
  destruct (N.eqb_spec c 92) as [-> | H92]; [apply esc_letter; [lia | reflexivity] |].
  destruct (N.eqb_spec c 34) as [-> | H34]; [apply esc_letter; [lia | reflexivity] |].
  cbn [orb].
  destruct (N.leb_spec 32 c); cbn [andb negb].
  - destruct (N.leb_spec c 126); cbn [negb].
    + apply esc_plain; assumption.
    + ncases. * apply esc_u; assumption. * apply esc_pair; assumption.
  - destruct (N.eqb_spec c 8) as [-> | ?]; [apply esc_letter; [lia | reflexivity] |].
    destruct (N.eqb_spec c 12) as [-> | ?]; [apply esc_letter; [lia | reflexivity] |].
    destruct (N.eqb_spec c 10) as [-> | ?]; [apply esc_letter; [lia | reflexivity] |].
    destruct (N.eqb_spec c 13) as [-> | ?]; [apply esc_letter; [lia | reflexivity] |].
    destruct (N.eqb_spec c 9) as [-> | ?]; [apply esc_letter; [lia | reflexivity] |].
    ncases. apply esc_u; assumption.
Qed.

Lemma scan_chunk_escape_char (c : N) (tail : pystr) :
  code_point c ->
  (is_high_surrogate c = true -> joins tail = false) ->
  scan_chunk (escape_char c ++ tail) = Some (Some c, tail).
Proof.
  intros Hc Hj. destruct (escape_char_escaped c) as [H34 H92 H32 | e He Hb | Hu | Hp].
  - cbn [app scan_chunk]. ncases. reflexivity.
  - cbn [app scan_chunk]. ncases. rewrite Hb. reflexivity.
  - apply scan_chunk_u_escape; assumption.
  - rewrite <- app_assoc. apply scan_chunk_pair. unfold code_point in Hc. lia.
Qed.

Lemma joins_escape (s rest : pystr) :
  wf s -> starts_low s = false -> joins (escape s ++ 34 :: rest) = false.
Proof.
  intros Hwf Hs. destruct s as [| d s]; [reflexivity |].
  apply Forall_cons in Hwf as [Hd _]. cbn [starts_low] in Hs.
  cbn [escape flat_map]. rewrite <- app_assoc.
  generalize (flat_map escape_char s ++ 34 :: rest). intros tail.
  unfold joins.
  destruct (escape_char_escaped d) as [H34 H92 H32 | e He Hb | Hu | Hp].
  - cbn [app after_backslash_u]. ncases; reflexivity.
  - cbn [app after_backslash_u]. ncases; reflexivity.
  - rewrite u_escape_app. cbn [after_backslash_u]. rewrite !N.eqb_refl.
    rewrite decode_u_escape by assumption. assumption.
  - rewrite <- app_assoc, u_escape_app. cbn [after_backslash_u]. rewrite !N.eqb_refl.
    unfold code_point in Hd.
    rewrite decode_u_escape by (apply high_half_bound; lia).
    apply high_half_surrogate. lia.
Qed.

Lemma pair_free_cons (c : N) (s : pystr) :
  has_surrogate_pair (c :: s) = false ->
  has_surrogate_pair s = false /\ (is_high_surrogate c = true -> starts_low s = false).
Proof.
  destruct s as [| d s]; [intros _; split; reflexivity |].
  cbn [has_surrogate_pair starts_low]. intros H.
  apply orb_false_iff in H as [H1 H2]. split; [exact H2 |].
  intros Hh. rewrite Hh in H1. exact H1.
Qed.

Lemma scan_loop_escape (s : pystr) :
  forall (rest : pystr) (fuel : nat),
    wf s -> has_surrogate_pair s = false -> (length s < fuel)%nat ->
    scan_loop fuel (escape s ++ 34 :: rest) = Some (s, rest).
Proof.
  induction s as [| c s IH]; intros rest fuel Hwf Hp Hfuel.
  - destruct fuel as [| fuel]; [inversion Hfuel |]. reflexivity.
  - destruct fuel as [| fuel]; [inversion Hfuel |].
    apply Forall_cons in Hwf as [Hc Hwf].
    apply pair_free_cons in Hp as [Hp Hlow].
    cbn [escape flat_map]. rewrite <- app_assoc. cbn [scan_loop].
    rewrite scan_chunk_escape_char; [| assumption |].
    + fold (escape s). rewrite IH; [reflexivity | assumption | assumption |].
      cbn [length] in Hfuel. lia.
    + intros Hh. apply joins_escape; [assumption | auto].
Qed.

Lemma escape_length (s : pystr) : (length s <= length (escape s))%nat.
Proof.
  induction s as [| c s IH]; [reflexivity |].
  cbn [escape flat_map]. rewrite length_app. fold (escape s). cbn [length].
  assert (1 <= length (escape_char c))%nat; [| lia].
  destruct (escape_char_escaped c); cbn; lia.
Qed.

(** The string scanner inverts the encoder on every well-formed string
    in which no high surrogate stands before a low surrogate. *)
Lemma py_scanstring_escape (s rest : pystr) :
  wf s -> has_surrogate_pair s = false ->
  py_scanstring (escape s ++ 34 :: rest) = Some (s, rest).
Proof.
  intros Hwf Hp. unfold py_scanstring. apply scan_loop_escape; [assumption | assumption |].
  rewrite length_app. cbn [length]. pose proof (escape_length s). lia.
Qed.

(** ** Strings built from literals *)

Lemma lit_bound (s : string) : Forall (fun c => c < 256) (lit s).
Proof.
  induction s as [| a s IH]; cbn [lit]; constructor; [apply N_ascii_bounded | exact IH].
Qed.

Lemma lit_wf (s : string) : wf (lit s).
Proof.
  eapply Forall_impl; [apply lit_bound |]. unfold code_point. intros c Hc. cbn beta in *. lia.
Qed.

Lemma wf_app (s t : pystr) : wf s -> wf t -> wf (s ++ t).
Proof. intros Hs Ht. apply Forall_app. split; assumption. Qed.

Lemma has_surrogate_pair_cons (c d : N) (q : pystr) :
  has_surrogate_pair (c :: d :: q) =
  (is_high_surrogate c && is_low_surrogate d) || has_surrogate_pair (d :: q).
Proof. reflexivity. Qed.

Lemma low_free_pair_free (q : pystr) :
  Forall (fun c => is_low_surrogate c = false) q -> has_surrogate_pair q = false.
Proof.
  induction q as [| c q IH]; [reflexivity |]. intros Hq.
  apply Forall_cons in Hq as [_ Hq]. destruct q as [| d q]; [reflexivity |].
  rewrite has_surrogate_pair_cons, IH by assumption.
  apply Forall_cons in Hq as [-> _]. rewrite andb_false_r. reflexivity.
Qed.

(** A prefix without high surrogates adds no pair. *)
Lemma pair_free_app_l (p s : pystr) :
  Forall (fun c => is_high_surrogate c = false) p ->
  has_surrogate_pair (p ++ s) = has_surrogate_pair s.
Proof.
  induction p as [| c p IH]; [reflexivity |]. intros Hp.
  apply Forall_cons in Hp as [Hc Hp]. specialize (IH Hp). cbn [app].
  destruct (p ++ s) as [| d t]; [rewrite <- IH; reflexivity |].
  rewrite has_surrogate_pair_cons, Hc, IH. reflexivity.
Qed.

(** A suffix without low surrogates adds no pair. *)
Lemma pair_free_app_r (s q : pystr) :
  Forall (fun c => is_low_surrogate c = false) q ->
  has_surrogate_pair (s ++ q) = has_surrogate_pair s.
Proof.
  intros Hq. induction s as [| c s IH]; [apply low_free_pair_free, Hq |].
  destruct s as [| d s].
  - destruct q as [| d q]; [reflexivity |]. cbn [app] in *.
    rewrite has_surrogate_pair_cons, IH.
    apply Forall_cons in Hq as [-> Hq]. rewrite andb_false_r. reflexivity.
  - cbn [app] in *. rewrite !has_surrogate_pair_cons, IH. reflexivity.
Qed.

Lemma lit_no_surrogate (s : string) :
  Forall (fun c => is_high_surrogate c = false) (lit s)
  /\ Forall (fun c => is_low_surrogate c = false) (lit s).
Proof.
  split; (eapply Forall_impl; [apply lit_bound |]); intros c Hc; cbn beta in *;
    unfold is_high_surrogate, is_low_surrogate; ncases; reflexivity.
Qed.

Lemma lit_pair_free (s : string) : has_surrogate_pair (lit s) = false.
Proof. apply low_free_pair_free, lit_no_surrogate. Qed.

(** A literal, a string and a literal: the f-string of the program. *)
Lemma wf_between (a b : string) (v : pystr) : wf v -> wf (lit a ++ v ++ lit b).
Proof. intros Hv. repeat apply wf_app; auto using lit_wf. Qed.

Lemma pair_free_between (a b : string) (v : pystr) :
  has_surrogate_pair (lit a ++ v ++ lit b) = has_surrogate_pair v.
Proof.
  rewrite pair_free_app_l by apply lit_no_surrogate.
  apply pair_free_app_r, lit_no_surrogate.
Qed.

(** ** An object of two string fields *)

Lemma json_dumps_two_fields (k1 s1 k2 s2 : pystr) :
  json_dumps (PyDict [(k1, PyStr s1); (k2, PyStr s2)]) = two_fields_text k1 s1 k2 s2.
Proof.
  cbn [json_dumps map join fst snd]. unfold py_encode_basestring_ascii, two_fields_text.
  cbn [lit N_of_ascii]. repeat (rewrite <- ?app_assoc; cbn [app]). reflexivity.
Qed.

Lemma scan_once_quote (fuel : nat) (cs : pystr) :
  scan_once (S fuel) (34 :: cs) =
  match py_scanstring cs with
  | Some (s, r) => Some (PyStr s, r)
  | None => None
  end.
Proof. reflexivity. Qed.

Lemma scan_once_brace (fuel : nat) (cs : pystr) :
  scan_once (S fuel) (123 :: cs) = JSONObject (scan_once fuel) fuel cs.
Proof. reflexivity. Qed.

Lemma dict_of_two_pairs (k1 k2 : pystr) (v1 v2 : pyval) :
  k1 <> k2 -> dict_of_pairs [(k1, v1); (k2, v2)] = [(k1, v1); (k2, v2)].
Proof.
  intros Hk. unfold dict_of_pairs. cbn [fold_left dict_set fst snd].
  destruct (decide (k1 = k2)); [contradiction | reflexivity].
Qed.

Local Arguments py_scanstring : simpl never.
Local Arguments scan_once : simpl never.
Local Arguments escape : simpl never.
Local Arguments dict_of_pairs : simpl never.

Lemma scan_once_two_fields (k1 s1 k2 s2 rest : pystr) (fuel : nat) :
  wf k1 -> has_surrogate_pair k1 = false ->
  wf s1 -> has_surrogate_pair s1 = false ->
  wf k2 -> has_surrogate_pair k2 = false ->
  wf s2 -> has_surrogate_pair s2 = false ->
  k1 <> k2 ->
  scan_once (S (S (S fuel))) (two_fields_text k1 s1 k2 s2 ++ rest)
  = Some (PyDict [(k1, PyStr s1); (k2, PyStr s2)], rest).
Proof.
  intros Hk1 Pk1 Hs1 Ps1 Hk2 Pk2 Hs2 Ps2 Hne.
  unfold two_fields_text. repeat (rewrite <- ?app_assoc; cbn [app]).
  rewrite scan_once_brace. unfold JSONObject. simpl.
  rewrite py_scanstring_escape by assumption. simpl.
  rewrite scan_once_quote, py_scanstring_escape by assumption. simpl.
  rewrite py_scanstring_escape by assumption. simpl.
  rewrite scan_once_quote, py_scanstring_escape by assumption. simpl.
  rewrite dict_of_two_pairs by assumption. reflexivity.
Qed.

(** [json.loads] inverts [json.dumps] on an object of two string
    fields, as long as no key and no value holds a high surrogate
    immediately before a low surrogate. *)
Lemma json_loads_two_fields (k1 s1 k2 s2 : pystr) :
  wf k1 -> has_surrogate_pair k1 = false ->
  wf s1 -> has_surrogate_pair s1 = false ->
  wf k2 -> has_surrogate_pair k2 = false ->
  wf s2 -> has_surrogate_pair s2 = false ->
  k1 <> k2 ->
  json_loads (json_dumps (PyDict [(k1, PyStr s1); (k2, PyStr s2)]))
  = Some (PyDict [(k1, PyStr s1); (k2, PyStr s2)]).
Proof.
  intros Hk1 Pk1 Hs1 Ps1 Hk2 Pk2 Hs2 Ps2 Hne.
  rewrite json_dumps_two_fields. unfold json_loads.
  change (skip_ws (two_fields_text k1 s1 k2 s2)) with (two_fields_text k1 s1 k2 s2).
  change (S (length (two_fields_text k1 s1 k2 s2)))
    with (S (S (S (length (skipn 2 (two_fields_text k1 s1 k2 s2)))))).
  rewrite <- (app_nil_r (two_fields_text k1 s1 k2 s2)) at 2.
  rewrite scan_once_two_fields by assumption. reflexivity.
Qed.

End JsonFacts.

(** * Facts about the program *)

Module MainFacts.

Lemma hello_world_run (w : World) : hello_world w = (Ok (greeting (configured w)), w).
Proof. reflexivity. Qed.

(** Every stream takes ASCII text. *)
Lemma ascii_encodable (f : TextIO) (s : pystr) :
  forallb (fun c => c <? 128) s = true -> encodable f s = true.
Proof.
  unfold encodable. induction s as [| c s IH]; [reflexivity |].
  cbn [forallb]. intros H. apply andb_true_iff in H as [Hc Hs].
  rewrite IH by exact Hs. apply N.ltb_lt in Hc.
  assert (Hin : in_codec (encoding f) c = true).
  { destruct (encoding f); unfold in_codec, is_surrogate.
    - apply N.ltb_lt. exact Hc.
    - apply N.ltb_lt. lia.
    - destruct (N.leb_spec 0xd800 c); [lia | reflexivity]. }
  unfold can_encode. rewrite Hin. reflexivity.
Qed.

Lemma print_run (s : pystr) (w : World) :
  print s w =
  if encodable (stdout w) s
  then (Ok tt,
        {| environ := environ w;
           stdout := {| encoding := encoding (stdout w);
                        errors := errors (stdout w);
                        written := written (stdout w) ++ s ++ [10] |} |})
  else (Raise UnicodeEncodeError, w).
Proof.
  unfold print, bind, TextIO_write.
  destruct (encodable (stdout w) s); [| reflexivity].
  cbn [stdout environ encoding errors written].
  rewrite ascii_encodable by reflexivity. rewrite <- app_assoc. reflexivity.
Qed.

(** The four ways a call of the handler ends. *)
Lemma lambda_handler_run {Event : Type} (event : Event) (context : pyobject) (w : World) :
  lambda_handler event context w =
  if encodable (stdout w) (greeting (configured w)) then
    match attrs context !! "function_name"%string with
    | Some (Json v) =>
        (Ok {| statusCode := 200;
               body := json_dumps (PyDict [(lit "message", PyStr (greeting (configured w)));
                                           (lit "function_name", v)]) |},
         logged w)
    | Some (Opaque t) => (Raise (TypeError t), logged w)
    | None => (Raise (AttributeError "function_name"), logged w)
    end
  else (Raise UnicodeEncodeError, w).
Proof.
  unfold lambda_handler. unfold bind at 1. rewrite hello_world_run.
  unfold bind at 1. rewrite print_run.
  destruct (encodable (stdout w) (greeting (configured w))); [| reflexivity].
  fold (logged w). unfold bind, getattr.
  destruct (attrs context !! "function_name"%string) as [[v | t] |]; reflexivity.
Qed.

(** What is known when the handler has returned a response. *)
Lemma lambda_handler_returned
  {Event : Type} (event : Event) (context : pyobject) (w w' : World) (r : response) :
  lambda_handler event context w = (Ok r, w') ->
  encodable (stdout w) (greeting (configured w)) = true
  /\ w' = logged w
  /\ exists v : pyval,
       attrs context !! "function_name"%string = Some (Json v)
       /\ r = {| statusCode := 200;
                 body := json_dumps (PyDict [(lit "message", PyStr (greeting (configured w)));
                                             (lit "function_name", v)]) |}.
Proof.
  rewrite lambda_handler_run.
  destruct (encodable (stdout w) (greeting (configured w))); [| discriminate].
  destruct (attrs context !! "function_name"%string) as [[v | t] |]; try discriminate.
  intros [= <- <-]. split; [reflexivity |]. split; [reflexivity |].
  exists v. split; reflexivity.
Qed.

(** When the stream takes the greeting and the name is a string. *)
Lemma lambda_handler_returns
  {Event : Type} (event : Event) (context : pyobject) (w : World) (v : pyval) :
  encodable (stdout w) (greeting (configured w)) = true ->
  attrs context !! "function_name"%string = Some (Json v) ->
  lambda_handler event context w
  = (Ok {| statusCode := 200;
           body := json_dumps (PyDict [(lit "message", PyStr (greeting (configured w)));
                                       (lit "function_name", v)]) |},
     logged w).
Proof. intros He Hv. rewrite lambda_handler_run, He, Hv. reflexivity. Qed.

End MainFacts.
Import JsonFacts MainFacts.
(** * The specification, claim by claim *)

(** C1. For every string [v] bound to [ENVIRONMENT], [hello_world()]
    returns exactly ["Hello World from " + v + " environment!"], whatever
    [v] holds: nothing in [v] is interpreted, escaped or trimmed. *)
Theorem hello_world_greets_environment (w : World) (v : pystr) :
  environ w !! "ENVIRONMENT"%string = Some v ->
  hello_world w = (Ok (lit "Hello World from " ++ v ++ lit " environment!"), w).
Proof.
  intros Hv. rewrite hello_world_run. unfold configured. rewrite Hv. reflexivity.
Qed.

(** The value of the witness is the three characters brace, double quote,
    brace. *)
Lemma hello_world_greets_environment_witness :
  environ (world_with [123; 34; 125]) !! "ENVIRONMENT"%string = Some [123; 34; 125]
  /\ hello_world (world_with [123; 34; 125])
     = (Ok (lit "Hello World from " ++ [123; 34; 125] ++ lit " environment!"),
        world_with [123; 34; 125]).
Proof.
  split; [reflexivity |].
  apply (hello_world_greets_environment (world_with [123; 34; 125]) [123; 34; 125]).
  reflexivity.
Defined.

(** C2. When [ENVIRONMENT] is absent from the environment mapping,
    [hello_world()] returns exactly ["Hello World from unknown
    environment!"]. *)
Theorem hello_world_default_unknown (w : World) :
  environ w !! "ENVIRONMENT"%string = None ->
  hello_world w = (Ok (lit "Hello World from unknown environment!"), w).
Proof.
  intros Hv. rewrite hello_world_run. unfold configured. rewrite Hv. reflexivity.
Qed.

Lemma hello_world_default_unknown_witness :
  environ world_unset !! "ENVIRONMENT"%string = None
  /\ hello_world world_unset = (Ok (lit "Hello World from unknown environment!"), world_unset).
Proof.
  split; [reflexivity |]. apply (hello_world_default_unknown world_unset). reflexivity.
Defined.








(** C6. [lambda_handler] ignores its event: in the same environment and
    with the same context, any two events, of any types, give the same
    outcome and leave the same world. *)
Theorem lambda_handler_ignores_event
  {Event1 Event2 : Type} (e1 : Event1) (e2 : Event2) (context : pyobject) (w : World) :
  lambda_handler e1 context w = lambda_handler e2 context w.
Proof. rewrite !lambda_handler_run. reflexivity. Qed.

(** C7. [hello_world()] never fails: in every world, with [ENVIRONMENT]
    set or not, it returns a string, and no world makes it raise. *)
Theorem hello_world_never_fails (w : World) :
  (exists s : pystr, hello_world w = (Ok s, w))
  /\ (forall (e : exn) (w' : World), hello_world w <> (Raise e, w')).
Proof.
  rewrite hello_world_run. split; [eexists; reflexivity | discriminate].
Qed.

(** C8. Neither function changes the environment mapping: after
    [hello_world()] the whole world is as before, and after
    [lambda_handler(event, context)], whether it returns or raises, the
    environment mapping is the one it started with. *)
Theorem environment_read_only
  {Event : Type} (event : Event) (context : pyobject) (w : World) :
  snd (hello_world w) = w
  /\ environ (snd (lambda_handler event context w)) = environ w.
Proof.
  rewrite hello_world_run, lambda_handler_run. split; [reflexivity |].
  destruct (encodable (stdout w) (greeting (configured w))); [| reflexivity].
  destruct (attrs context !! "function_name"%string) as [[v | t] |]; reflexivity.
Qed.

(** C9. With [ENVIRONMENT] set to ["test"] and a context whose
    [function_name] is ["test-function"], [lambda_handler] returns status
    200 and a body that parses to exactly the object with [message] =
    ["Hello World from test environment!"] and [function_name] =
    ["test-function"]. *)
Theorem scenario_test_environment
  {Event : Type} (event : Event) (context : pyobject) (w : World) :
  environ w !! "ENVIRONMENT"%string = Some (lit "test") ->
  attrs context !! "function_name"%string = Some (Json (PyStr (lit "test-function"))) ->
  exists (r : response) (w' : World),
    lambda_handler event context w = (Ok r, w')
    /\ statusCode r = 200%Z
    /\ json_loads (body r)
       = Some (PyDict [(lit "message", PyStr (lit "Hello World from test environment!"));
                       (lit "function_name", PyStr (lit "test-function"))]).
Proof.
  intros Henv Hfn.
  assert (Hc : configured w = lit "test") by (unfold configured; rewrite Henv; reflexivity).
  rewrite (lambda_handler_returns event context w (PyStr (lit "test-function")));
    [| rewrite Hc; apply ascii_encodable; reflexivity | exact Hfn].
  rewrite Hc. eexists _, _. split; [reflexivity |]. split; [reflexivity |].
  vm_compute. reflexivity.
Qed.

Lemma scenario_test_environment_witness :
  exists (r : response) (w' : World),
    lambda_handler (PyDict []) (context_named (lit "test-function")) (world_with (lit "test"))
    = (Ok r, w')
    /\ statusCode r = 200%Z
    /\ json_loads (body r)
       = Some (PyDict [(lit "message", PyStr (lit "Hello World from test environment!"));
                       (lit "function_name", PyStr (lit "test-function"))]).
Proof.
  apply (scenario_test_environment (PyDict []) (context_named (lit "test-function"))
           (world_with (lit "test"))); reflexivity.
Defined.

(** C10, as stated, fails: a [function_name] made of the two code points
    U+D83D and U+DE00 is written as two [\uXXXX] escapes, which the decoder
    joins into the single code point U+1F600.  The body is valid JSON, but
    parsing it does not give back the original string. *)
Lemma body_round_trip_fails_on_surrogate_pair :
  wf (lit "test") /\ wf [0xd83d; 0xde00]
  /\ exists (r : response) (w' : World),
       lambda_handler tt (context_named [0xd83d; 0xde00]) (world_with (lit "test")) = (Ok r, w')
       /\ json_loads (body r)
          = Some (PyDict [(lit "message", PyStr (lit "Hello World from test environment!"));
                          (lit "function_name", PyStr [0x1f600])])
       /\ json_loads (body r)
          <> Some (PyDict [(lit "message", PyStr (lit "Hello World from test environment!"));
                           (lit "function_name", PyStr [0xd83d; 0xde00])]).
Proof.
  split; [apply lit_wf |]. split; [repeat constructor |].
  eexists _, _. split; [reflexivity |].
  split; [vm_compute; reflexivity | vm_compute; discriminate].
Qed.

(** C10, amended.  For every value [v] of [ENVIRONMENT] and every string
    [function_name] [fn] in which no high surrogate (U+D800..U+DBFF) stands
    immediately before a low surrogate (U+DC00..U+DFFF), in particular for
    all strings of Unicode scalar values, with quotes, backslashes, braces,
    control characters or anything else in them: the body of every
    response [lambda_handler] returns is valid JSON, and parsing it gives
    exactly the two-field object with the greeting for [v] and [fn],
    unaltered; and such a response is returned whenever standard output can
    encode the greeting. *)
Theorem body_round_trip_without_surrogate_pairs
  {Event : Type} (event : Event) (context : pyobject) (w : World) (v fn : pystr) :
  environ w !! "ENVIRONMENT"%string = Some v ->
  attrs context !! "function_name"%string = Some (Json (PyStr fn)) ->
  wf v -> wf fn ->
  has_surrogate_pair v = false -> has_surrogate_pair fn = false ->
  (forall (r : response) (w' : World),
     lambda_handler event context w = (Ok r, w') ->
     json_loads (body r)
     = Some (PyDict [(lit "message",
                      PyStr (lit "Hello World from " ++ v ++ lit " environment!"));
                     (lit "function_name", PyStr fn)]))
  /\ (encodable (stdout w) (lit "Hello World from " ++ v ++ lit " environment!") = true ->
      exists (r : response) (w' : World),
        lambda_handler event context w = (Ok r, w')
        /\ json_loads (body r)
           = Some (PyDict [(lit "message",
                            PyStr (lit "Hello World from " ++ v ++ lit " environment!"));
                           (lit "function_name", PyStr fn)])).
Proof.
  intros Henv Hfn Hv Hf Pv Pf.
  assert (Hc : configured w = v) by (unfold configured; rewrite Henv; reflexivity).
  assert (Hparse :
    json_loads (json_dumps (PyDict [(lit "message", PyStr (greeting v));
                                    (lit "function_name", PyStr fn)]))
    = Some (PyDict [(lit "message", PyStr (greeting v)); (lit "function_name", PyStr fn)])).
  { unfold greeting. apply json_loads_two_fields;
      first [apply lit_wf | apply lit_pair_free | apply wf_between, Hv
            | rewrite pair_free_between; exact Pv | assumption | discriminate]. }
  split.
  - intros r w' Hret. apply lambda_handler_returned in Hret as (_ & _ & v' & Hv' & ->).
    rewrite Hfn in Hv'. injection Hv' as <-. rewrite Hc. exact Hparse.
  - intros He. fold (greeting v) in He. rewrite <- Hc in He.
    rewrite (lambda_handler_returns event context w (PyStr fn) He Hfn), Hc.
    eexists _, _. split; [reflexivity |]. exact Hparse.
Qed.

(** The witness: [ENVIRONMENT] holds a double quote, a backslash, braces
    and a newline; [function_name] holds U+1F600, a lone low surrogate, a
    double quote, a backslash, a newline and U+00E9. *)
Lemma body_round_trip_without_surrogate_pairs_witness :
  exists (r : response) (w' : World),
    lambda_handler tt (context_named [0x1f600; 0xdc80; 34; 92; 10; 0xe9])
      (world_with [34; 92; 123; 125; 10]) = (Ok r, w')
    /\ json_loads (body r)
       = Some (PyDict [(lit "message",
                        PyStr (lit "Hello World from " ++ [34; 92; 123; 125; 10]
                                 ++ lit " environment!"));
                       (lit "function_name", PyStr [0x1f600; 0xdc80; 34; 92; 10; 0xe9])]).
Proof.
  apply (proj2 (body_round_trip_without_surrogate_pairs tt
                  (context_named [0x1f600; 0xdc80; 34; 92; 10; 0xe9])
                  (world_with [34; 92; 123; 125; 10])
                  [34; 92; 123; 125; 10] [0x1f600; 0xdc80; 34; 92; 10; 0xe9]
                  eq_refl eq_refl ltac:(repeat constructor) ltac:(repeat constructor)
                  eq_refl eq_refl)).
  reflexivity.
Defined.
(** * Further facts about the [json] embedding *)

Module MoreFacts.

(** ** The encoder writes printable ASCII only *)

Lemma hex_digit_printable (d : N) : d < 16 -> printable (hex_digit d).
Proof. intros Hd. unfold printable, hex_digit. destruct (N.ltb_spec d 10); lia. Qed.

Lemma u_escape_printable (n : N) : Forall printable (u_escape n).
Proof.
  unfold u_escape.
  repeat (apply Forall_cons; split;
          [first [apply hex_digit_printable, N.mod_lt; lia | unfold printable; lia] |]).
  apply Forall_nil. exact I.
Qed.

Lemma escape_char_printable (c : N) : Forall printable (escape_char c).
Proof.
  assert (Hpair : forall a b : N, printable a -> printable b -> Forall printable [a; b])
    by (intros a b Ha Hb; repeat (apply Forall_cons; split; [assumption |]);
        apply Forall_nil; exact I).
  unfold escape_char, ESCAPE_ASCII, replace.
  destruct (N.eqb_spec c 92); [apply Hpair; unfold printable; lia |].
  destruct (N.eqb_spec c 34); [apply Hpair; unfold printable; lia |].
  cbn [orb].
  destruct (N.leb_spec 32 c), (N.leb_spec c 126); cbn [andb negb].
  - apply Forall_cons; split; [split; assumption | apply Forall_nil; exact I].
  - ncases; [apply u_escape_printable |].
    apply Forall_app; split; apply u_escape_printable.
  - ncases; first [apply Hpair; unfold printable; lia | apply u_escape_printable].
  - lia.
Qed.

Lemma escape_printable (s : pystr) : Forall printable (escape s).
Proof.
  induction s as [| c s IH]; [apply Forall_nil; exact I |].
  cbn [escape flat_map]. apply Forall_app. split; [apply escape_char_printable | exact IH].
Qed.

Lemma two_fields_text_printable (k1 s1 k2 s2 : pystr) :
  Forall printable (two_fields_text k1 s1 k2 s2).
Proof.
  unfold two_fields_text.
  repeat first
    [ apply Forall_cons; split; [unfold printable; lia |]
    | apply Forall_app; split; [apply escape_printable |]
    | apply Forall_nil; exact I ].
Qed.

(** ** Surrogates are written as single escapes *)

Lemma escape_char_surrogate (c : N) :
  0xd800 <= c <= 0xdfff -> escape_char c = u_escape c.
Proof.
  intros Hc. unfold escape_char, ESCAPE_ASCII, replace. ncases; reflexivity.
Qed.

Lemma escape_char_astral (c : N) :
  0x10000 <= c -> escape_char c = u_escape (high_half c) ++ u_escape (low_half c).
Proof.
  intros Hc. unfold escape_char, ESCAPE_ASCII, replace. ncases; reflexivity.
Qed.

Lemma surrogate_range (c : N) :
  (is_high_surrogate c = true -> 0xd800 <= c <= 0xdbff)
  /\ (is_low_surrogate c = true -> 0xdc00 <= c <= 0xdfff).
Proof.
  unfold is_high_surrogate, is_low_surrogate.
  split; intros H; apply andb_true_iff in H as [H1 H2];
    apply N.leb_le in H1; apply N.leb_le in H2; lia.
Qed.

(** ** What the string scanner makes of an encoded string *)

Lemma scan_chunk_joined (c d : N) (tail : pystr) :
  is_high_surrogate c = true -> is_low_surrogate d = true ->
  scan_chunk (u_escape c ++ u_escape d ++ tail) = Some (Some (join_surrogates c d), tail).
Proof.
  intros Hc Hd.
  pose proof (proj1 (surrogate_range c) Hc). pose proof (proj2 (surrogate_range d) Hd).
  rewrite u_escape_app, scan_chunk_backslash_u, decode_u_escape by lia.
  rewrite Hc, u_escape_app. cbn [after_backslash_u]. rewrite !N.eqb_refl.
  rewrite decode_u_escape by lia. rewrite Hd. reflexivity.
Qed.

Lemma join_pairs_pair (c d : N) (t : pystr) :
  is_high_surrogate c && is_low_surrogate d = true ->
  join_pairs (c :: d :: t) = join_surrogates c d :: join_pairs t.
Proof. intros H. cbn [join_pairs]. rewrite H. reflexivity. Qed.

Lemma join_pairs_single (c : N) (t : pystr) :
  is_high_surrogate c && starts_low t = false ->
  join_pairs (c :: t) = c :: join_pairs t.
Proof.
  destruct t as [| d t]; [reflexivity |]. cbn [starts_low]. intros H.
  change (join_pairs (c :: d :: t))
    with (if is_high_surrogate c && is_low_surrogate d
          then join_surrogates c d :: join_pairs t else c :: join_pairs (d :: t)).
  rewrite H. reflexivity.
Qed.

Lemma scan_loop_escape_joined (n : nat) :
  forall (s rest : pystr) (fuel : nat),
    (length s <= n)%nat -> wf s -> (length s < fuel)%nat ->
    scan_loop fuel (escape s ++ 34 :: rest) = Some (join_pairs s, rest).
Proof.
  induction n as [| n IH]; intros s rest fuel Hn Hwf Hfuel.
  - destruct s; [| cbn [length] in Hn; lia].
    destruct fuel as [| fuel]; [inversion Hfuel |]. reflexivity.
  - destruct s as [| c t].
    { destruct fuel as [| fuel]; [inversion Hfuel |]. reflexivity. }
    destruct fuel as [| fuel]; [inversion Hfuel |].
    apply Forall_cons in Hwf as [Hc Hwf]. cbn [length] in Hn, Hfuel.
    destruct (is_high_surrogate c && starts_low t) eqn:Hp.
    + destruct t as [| d t]; [rewrite andb_false_r in Hp; discriminate |].
      cbn [starts_low] in Hp. rewrite join_pairs_pair by exact Hp.
      apply andb_true_iff in Hp as [Hh Hl].
      apply Forall_cons in Hwf as [_ Hwf]. cbn [length] in Hn, Hfuel.
      cbn [escape flat_map].
      rewrite (escape_char_surrogate c) by (apply surrogate_range in Hh; lia).
      rewrite (escape_char_surrogate d) by (apply surrogate_range in Hl; lia).
      rewrite <- !app_assoc. cbn [scan_loop]. rewrite scan_chunk_joined by assumption.
      fold (escape t). rewrite (IH t rest fuel) by (assumption || lia). reflexivity.
    + rewrite join_pairs_single by exact Hp.
      cbn [escape flat_map]. rewrite <- app_assoc. cbn [scan_loop].
      rewrite scan_chunk_escape_char; [| assumption |].
      * fold (escape t). rewrite (IH t rest fuel) by (assumption || lia). reflexivity.
      * intros Hh. rewrite Hh in Hp. apply joins_escape; assumption.
Qed.

(** The string scanner gives back what the encoder was given, with the
    surrogate pairs joined. *)
Lemma py_scanstring_escape_joined (s rest : pystr) :
  wf s -> py_scanstring (escape s ++ 34 :: rest) = Some (join_pairs s, rest).
Proof.
  intros Hwf. unfold py_scanstring.
  apply (scan_loop_escape_joined (length s)); [lia | assumption |].
  rewrite length_app. cbn [length]. pose proof (escape_length s). lia.
Qed.

(** ** Joining and pair-free strings *)

Lemma join_pairs_length (n : nat) :
  forall s : pystr,
    (length s <= n)%nat ->
    (length (join_pairs s) <= length s)%nat
    /\ (has_surrogate_pair s = true -> (length (join_pairs s) < length s)%nat).
Proof.
  induction n as [| n IH]; intros s Hn.
  - destruct s; [| cbn [length] in Hn; lia]. split; [reflexivity | discriminate].
  - destruct s as [| c t]; [split; [reflexivity | discriminate] |].
    cbn [length] in Hn.
    destruct t as [| d t]; [split; [reflexivity | discriminate] |].
    rewrite has_surrogate_pair_cons.
    destruct (is_high_surrogate c && is_low_surrogate d) eqn:Hp.
    + rewrite join_pairs_pair by exact Hp. cbn [length] in *.
      destruct (IH t ltac:(lia)) as [Hle _]. split; intros; lia.
    + rewrite join_pairs_single by exact Hp. cbn [orb].
      destruct (IH (d :: t) ltac:(lia)) as [Hle Hlt].
      change (length (c :: join_pairs (d :: t))) with (S (length (join_pairs (d :: t)))).
      change (length (c :: d :: t)) with (S (length (d :: t))).
      split; [lia |]. intros Hpair. specialize (Hlt Hpair). lia.
Qed.

Lemma join_pairs_fixed (s : pystr) :
  join_pairs s = s <-> has_surrogate_pair s = false.
Proof.
  split.
  - intros Heq. destruct (has_surrogate_pair s) eqn:Hp; [| reflexivity].
    destruct (join_pairs_length (length s) s ltac:(lia)) as [_ Hlt].
    specialize (Hlt Hp). rewrite Heq in Hlt. lia.
  - induction s as [| c t IH]; [reflexivity |]. intros Hp.
    apply pair_free_cons in Hp as [Hp Hlow].
    rewrite join_pairs_single, IH by first [assumption |
      destruct (is_high_surrogate c); [rewrite Hlow by reflexivity |]; reflexivity].
    reflexivity.
Qed.

Lemma join_pairs_app_l (p s : pystr) :
  Forall (fun c => is_high_surrogate c = false) p ->
  join_pairs (p ++ s) = p ++ join_pairs s.
Proof.
  induction p as [| c p IH]; [reflexivity |]. intros Hp.
  apply Forall_cons in Hp as [Hc Hp]. cbn [app].
  rewrite join_pairs_single by (rewrite Hc; reflexivity).
  rewrite IH by assumption. reflexivity.
Qed.

Lemma starts_low_app (t q : pystr) :
  Forall (fun c => is_low_surrogate c = false) q ->
  starts_low (t ++ q) = starts_low t.
Proof.
  intros Hq. destruct t as [| d t]; [| reflexivity].
  destruct q as [| d q]; [reflexivity |]. apply Forall_cons in Hq as [Hd _]. exact Hd.
Qed.

Lemma join_pairs_app_r (n : nat) :
  forall s q : pystr,
    (length s <= n)%nat ->
    Forall (fun c => is_low_surrogate c = false) q ->
    join_pairs (s ++ q) = join_pairs s ++ q.
Proof.
  induction n as [| n IH]; intros s q Hn Hq.
  - destruct s; [| cbn [length] in Hn; lia].
    apply join_pairs_fixed, low_free_pair_free, Hq.
  - destruct s as [| c t]; [apply join_pairs_fixed, low_free_pair_free, Hq |].
    cbn [length] in Hn.
    destruct (is_high_surrogate c && starts_low t) eqn:Hp.
    + destruct t as [| d t]; [rewrite andb_false_r in Hp; discriminate |].
      cbn [starts_low] in Hp. cbn [app length] in *.
      rewrite !join_pairs_pair by exact Hp.
      rewrite IH by (assumption || lia). reflexivity.
    + cbn [app]. rewrite !join_pairs_single by (rewrite ?starts_low_app by assumption; exact Hp).
      rewrite IH by (assumption || lia). reflexivity.
Qed.

Lemma join_pairs_between (a b : string) (v : pystr) :
  join_pairs (lit a ++ v ++ lit b) = lit a ++ join_pairs v ++ lit b.
Proof.
  rewrite join_pairs_app_l by apply lit_no_surrogate.
  rewrite (join_pairs_app_r (length v)) by (lia || apply lit_no_surrogate). reflexivity.
Qed.

(** ** Parsing an object of two string fields, in general *)

Local Arguments py_scanstring : simpl never.
Local Arguments scan_once : simpl never.
Local Arguments escape : simpl never.
Local Arguments dict_of_pairs : simpl never.
Local Arguments join_pairs : simpl never.

Lemma scan_once_two_fields_joined (k1 s1 k2 s2 rest : pystr) (fuel : nat) :
  wf k1 -> has_surrogate_pair k1 = false -> wf s1 ->
  wf k2 -> has_surrogate_pair k2 = false -> wf s2 ->
  k1 <> k2 ->
  scan_once (S (S (S fuel))) (two_fields_text k1 s1 k2 s2 ++ rest)
  = Some (PyDict [(k1, PyStr (join_pairs s1)); (k2, PyStr (join_pairs s2))], rest).
Proof.
  intros Hk1 Pk1 Hs1 Hk2 Pk2 Hs2 Hne.
  unfold two_fields_text. repeat (rewrite <- ?app_assoc; cbn [app]).
  rewrite scan_once_brace. unfold JSONObject. simpl.
  rewrite py_scanstring_escape by assumption. simpl.
  rewrite scan_once_quote, py_scanstring_escape_joined by assumption. simpl.
  rewrite py_scanstring_escape by assumption. simpl.
  rewrite scan_once_quote, py_scanstring_escape_joined by assumption. simpl.
  rewrite dict_of_two_pairs by assumption. reflexivity.
Qed.

Lemma json_loads_two_fields_joined (k1 s1 k2 s2 : pystr) :
  wf k1 -> has_surrogate_pair k1 = false -> wf s1 ->
  wf k2 -> has_surrogate_pair k2 = false -> wf s2 ->
  k1 <> k2 ->
  json_loads (json_dumps (PyDict [(k1, PyStr s1); (k2, PyStr s2)]))
  = Some (PyDict [(k1, PyStr (join_pairs s1)); (k2, PyStr (join_pairs s2))]).
Proof.
  intros Hk1 Pk1 Hs1 Hk2 Pk2 Hs2 Hne.
  rewrite json_dumps_two_fields. unfold json_loads.
  change (skip_ws (two_fields_text k1 s1 k2 s2)) with (two_fields_text k1 s1 k2 s2).
  change (S (length (two_fields_text k1 s1 k2 s2)))
    with (S (S (S (length (skipn 2 (two_fields_text k1 s1 k2 s2)))))).
  rewrite <- (app_nil_r (two_fields_text k1 s1 k2 s2)) at 2.
  rewrite scan_once_two_fields_joined by assumption. reflexivity.
Qed.

(** The body of the handler, parsed. *)
Lemma json_loads_payload (message fn : pystr) :
  wf message -> wf fn ->
  json_loads (json_dumps (payload message fn))
  = Some (payload (join_pairs message) (join_pairs fn)).
Proof.
  intros Hm Hf. unfold payload.
  apply json_loads_two_fields_joined;
    first [apply lit_wf | apply lit_pair_free | assumption | discriminate].
Qed.

Lemma greeting_wf (v : pystr) : wf v -> wf (greeting v).
Proof. apply wf_between. Qed.

Lemma configured_wf (w : World) :
  (forall v : pystr, environ w !! "ENVIRONMENT"%string = Some v -> wf v) -> wf (configured w).
Proof.
  intros H. unfold configured.
  destruct (environ w !! "ENVIRONMENT"%string) as [v |]; [apply H; reflexivity | apply lit_wf].
Qed.

Lemma greeting_inj (v v' : pystr) : greeting v = greeting v' -> v = v'.
Proof.
  unfold greeting. intros H. apply app_inv_head in H. apply app_inv_tail in H. exact H.
Qed.

Lemma payload_inj (m f m' f' : pystr) :
  Some (payload m f) = Some (payload m' f') -> m = m' /\ f = f'.
Proof. unfold payload. intros H. injection H as Hm Hf. split; assumption. Qed.

(** ** Substrings *)

Lemma startswith_app (p s : pystr) : startswith p (p ++ s) = true.
Proof.
  induction p as [| a p IH]; [reflexivity |].
  cbn [app startswith]. rewrite N.eqb_refl, IH. reflexivity.
Qed.

Lemma substring_app (needle a b : pystr) : substring needle (a ++ needle ++ b) = true.
Proof.
  induction a as [| c a IH].
  - cbn [app]. destruct (needle ++ b) eqn:E; cbn [substring]; rewrite <- ?E;
      rewrite startswith_app; reflexivity.
  - cbn [app substring]. rewrite IH. apply orb_true_r.
Qed.

(** ** The body the tests parse *)

Lemma test_body_parsed :
  json_loads (json_dumps (payload (lit "Hello World from test environment!")
                            (lit "test-function")))
  = Some (payload (lit "Hello World from test environment!") (lit "test-function")).
Proof. vm_compute. reflexivity. Qed.

End MoreFacts.
Import MoreFacts.

(** * Facts about the bytes of the environment *)

Module CodecFacts.





End CodecFacts.
Import CodecFacts.

(** * The encoder writes printable ASCII for every value *)

Module PrintableFacts.








End PrintableFacts.
Import PrintableFacts.

(** * Facts about the tests *)

Module TestFacts.

(** The assignment both tests start with. *)
Lemma os_environ_set_test (w : World) :
  os_environ_set "ENVIRONMENT" (lit "test") w
  = (Passed tt,
     {| environ := <["ENVIRONMENT"%string := lit "test"]> (environ w); stdout := stdout w |}).
Proof. reflexivity. Qed.


End TestFacts.
Import TestFacts.

(** * Further properties of the program and of its tests *)





(** X3. The outcome of [lambda_handler] depends on three things only: the
    value of [ENVIRONMENT] after the default is applied, the lookup of
    [function_name], and whether standard output can encode the greeting.
    Other environment variables, other attributes of the context, the event
    and what is already on standard output make no difference; in
    particular an unset [ENVIRONMENT] and one set to ["unknown"] cannot be
    told apart. *)
Theorem lambda_handler_depends_on
  {Event1 Event2 : Type} (e1 : Event1) (e2 : Event2) (c1 c2 : pyobject) (w1 w2 : World) :
  configured w1 = configured w2 ->
  attrs c1 !! "function_name"%string = attrs c2 !! "function_name"%string ->
  encodable (stdout w1) (greeting (configured w1))
  = encodable (stdout w2) (greeting (configured w2)) ->
  fst (lambda_handler e1 c1 w1) = fst (lambda_handler e2 c2 w2).
Proof.
  intros Henv Hfn Henc. rewrite !lambda_handler_run, Henc, Henv, Hfn.
  destruct (encodable (stdout w2) (greeting (configured w2))); [| reflexivity].
  destruct (attrs c2 !! "function_name"%string) as [[v | t] |]; reflexivity.
Qed.

Lemma lambda_handler_depends_on_witness :
  fst (lambda_handler tt
         {| attrs := {[ "function_name"%string := Json (PyStr (lit "svc-1")) ]} |}
         {| environ := {[ "HOME"%string := lit "/root" ]};
            stdout := {| encoding := ASCII; errors := Strict; written := lit "earlier" |} |})
  = fst (lambda_handler (PyInt 7)
           {| attrs := <[ "memory_limit_in_mb"%string := Json (PyInt 128) ]>
                         {[ "function_name"%string := Json (PyStr (lit "svc-1")) ]} |}
           {| environ := {[ "ENVIRONMENT"%string := lit "unknown" ]}; stdout := utf8_strict |}).
Proof.
  apply (lambda_handler_depends_on tt (PyInt 7)); reflexivity.
Defined.


(** X5. The body of every response is valid JSON.  For a string
    [function_name], whatever it and [ENVIRONMENT] hold, parsing the body
    gives an object of exactly the two string fields [message] and
    [function_name]; their values are the greeting and the name with every
    high surrogate that stands immediately before a low surrogate joined
    with it into one code point.  Such a response is returned whenever
    standard output can encode the greeting. *)
Theorem lambda_handler_body_parses
  {Event : Type} (event : Event) (context : pyobject) (w : World) (fn : pystr) :
  attrs context !! "function_name"%string = Some (Json (PyStr fn)) ->
  wf (configured w) -> wf fn ->
  (forall (r : response) (w' : World),
     lambda_handler event context w = (Ok r, w') ->
     json_loads (body r)
     = Some (payload (greeting (join_pairs (configured w))) (join_pairs fn)))
  /\ (encodable (stdout w) (greeting (configured w)) = true ->
      exists (r : response) (w' : World),
        lambda_handler event context w = (Ok r, w')
        /\ json_loads (body r)
           = Some (payload (greeting (join_pairs (configured w))) (join_pairs fn))).
Proof.
  intros Hfn Hv Hf.
  assert (Hparse :
    json_loads (json_dumps (payload (greeting (configured w)) fn))
    = Some (payload (greeting (join_pairs (configured w))) (join_pairs fn))).
  { rewrite json_loads_payload by (try apply greeting_wf; assumption).
    unfold greeting. rewrite join_pairs_between. reflexivity. }
  split.
  - intros r w' Hret. apply lambda_handler_returned in Hret as (_ & _ & v & Hv' & ->).
    rewrite Hfn in Hv'. injection Hv' as <-. exact Hparse.
  - intros He. rewrite (lambda_handler_returns event context w (PyStr fn) He Hfn).
    eexists _, _. split; [reflexivity | exact Hparse].
Qed.

(** The witness: [ENVIRONMENT] holds U+00E9 and the lone surrogate
    U+DC80, as [os.environ] shows the bytes C3 A9 80, standard output
    escapes surrogates, and [function_name] holds a surrogate pair. *)
Lemma lambda_handler_body_parses_witness :
  exists (r : response) (w' : World),
    lambda_handler tt (context_named [97; 0xd83d; 0xde00; 98]) world_escaping = (Ok r, w')
    /\ json_loads (body r)
       = Some (payload (greeting (join_pairs (configured world_escaping)))
                 (join_pairs [97; 0xd83d; 0xde00; 98])).
Proof.
  apply (proj2 (lambda_handler_body_parses tt (context_named [97; 0xd83d; 0xde00; 98])
                  world_escaping [97; 0xd83d; 0xde00; 98]
                  ltac:(reflexivity) ltac:(repeat constructor) ltac:(repeat constructor))).
  reflexivity.
Defined.

(** X6. For a string [function_name], parsing the body of a response
    gives back the greeting and the name unaltered exactly when neither the
    value of [ENVIRONMENT] (or its default) nor [function_name] holds a
    high surrogate immediately before a low surrogate: the condition is
    sufficient and necessary.  Such a response is returned whenever
    standard output can encode the greeting. *)
Theorem lambda_handler_round_trip_iff
  {Event : Type} (event : Event) (context : pyobject) (w : World) (fn : pystr) :
  attrs context !! "function_name"%string = Some (Json (PyStr fn)) ->
  wf (configured w) -> wf fn ->
  (forall (r : response) (w' : World),
     lambda_handler event context w = (Ok r, w') ->
     (json_loads (body r) = Some (payload (greeting (configured w)) fn)
      <-> has_surrogate_pair (configured w) = false /\ has_surrogate_pair fn = false))
  /\ (encodable (stdout w) (greeting (configured w)) = true ->
      exists (r : response) (w' : World), lambda_handler event context w = (Ok r, w')).
Proof.
  intros Hfn Hv Hf. split.
  - intros r w' Hret. apply lambda_handler_returned in Hret as (_ & _ & v & Hv' & ->).
    rewrite Hfn in Hv'. injection Hv' as <-.
    cbn [body]. fold (payload (greeting (configured w)) fn).
    rewrite json_loads_payload by (try apply greeting_wf; assumption).
    split.
    + intros Heq. apply payload_inj in Heq as [Hm Hn].
      apply join_pairs_fixed in Hm. apply join_pairs_fixed in Hn.
      unfold greeting in Hm. rewrite pair_free_between in Hm. split; assumption.
    + intros [Pv Pf]. apply join_pairs_fixed in Pf. rewrite Pf.
      assert (Pg : has_surrogate_pair (greeting (configured w)) = false)
        by (unfold greeting; rewrite pair_free_between; exact Pv).
      apply join_pairs_fixed in Pg. rewrite Pg. reflexivity.
  - intros He. rewrite (lambda_handler_returns event context w (PyStr fn) He Hfn).
    eexists _, _. reflexivity.
Qed.

Lemma lambda_handler_round_trip_iff_witness :
  (json_loads (json_dumps (payload (greeting (configured world_unset)) [0xd83d; 0xde00]))
   = Some (payload (greeting (configured world_unset)) [0xd83d; 0xde00])
   <-> has_surrogate_pair (configured world_unset) = false
       /\ has_surrogate_pair [0xd83d; 0xde00] = false)
  /\ exists (r : response) (w' : World),
       lambda_handler tt (context_named [0xd83d; 0xde00]) world_unset = (Ok r, w').
Proof.
  split.
  - apply (proj1 (lambda_handler_round_trip_iff tt (context_named [0xd83d; 0xde00]) world_unset
                    [0xd83d; 0xde00] ltac:(reflexivity) ltac:(apply lit_wf)
                    ltac:(repeat constructor))
             {| statusCode := 200;
                body := json_dumps (payload (greeting (configured world_unset))
                                      [0xd83d; 0xde00]) |}
             (logged world_unset)).
    reflexivity.
  - apply (proj2 (lambda_handler_round_trip_iff tt (context_named [0xd83d; 0xde00]) world_unset
                    [0xd83d; 0xde00] ltac:(reflexivity) ltac:(apply lit_wf)
                    ltac:(repeat constructor))).
    reflexivity.
Defined.

(** X7. On strings without such pairs the body determines its inputs: if
    two invocations return responses with the same body, they ran with the
    same value of [ENVIRONMENT] (after the default) and the same string
    [function_name]. *)
Theorem lambda_handler_body_injective
  {Event1 Event2 : Type} (e1 : Event1) (e2 : Event2) (c1 c2 : pyobject)
  (w1 w2 w1' w2' : World) (r1 r2 : response) (fn1 fn2 : pystr) :
  attrs c1 !! "function_name"%string = Some (Json (PyStr fn1)) ->
  attrs c2 !! "function_name"%string = Some (Json (PyStr fn2)) ->
  wf (configured w1) -> wf fn1 -> wf (configured w2) -> wf fn2 ->
  has_surrogate_pair (configured w1) = false -> has_surrogate_pair fn1 = false ->
  has_surrogate_pair (configured w2) = false -> has_surrogate_pair fn2 = false ->
  lambda_handler e1 c1 w1 = (Ok r1, w1') ->
  lambda_handler e2 c2 w2 = (Ok r2, w2') ->
  body r1 = body r2 ->
  configured w1 = configured w2 /\ fn1 = fn2.
Proof.
  intros H1 H2 Hv1 Hf1 Hv2 Hf2 Pv1 Pf1 Pv2 Pf2 Hr1 Hr2 Hbody.
  apply lambda_handler_returned in Hr1 as (_ & _ & v1 & Hv1' & ->).
  apply lambda_handler_returned in Hr2 as (_ & _ & v2 & Hv2' & ->).
  rewrite H1 in Hv1'. injection Hv1' as <-. rewrite H2 in Hv2'. injection Hv2' as <-.
  cbn [body] in Hbody. apply (f_equal json_loads) in Hbody.
  fold (payload (greeting (configured w1)) fn1) in Hbody.
  fold (payload (greeting (configured w2)) fn2) in Hbody.
  rewrite !json_loads_payload in Hbody by (try apply greeting_wf; assumption).
  apply payload_inj in Hbody as [Hm Hn].
  unfold greeting in Hm. rewrite !join_pairs_between in Hm.
  apply join_pairs_fixed in Pv1, Pf1, Pv2, Pf2. rewrite Pv1, Pv2 in Hm. rewrite Pf1, Pf2 in Hn.
  apply app_inv_head, app_inv_tail in Hm. split; assumption.
Qed.

(** The witness: an unset [ENVIRONMENT] on one side and [ENVIRONMENT] set
    to ["unknown"] on the other, the same name in two different contexts;
    the two bodies are equal. *)
Lemma lambda_handler_body_injective_witness :
  body {| statusCode := 200;
          body := json_dumps (payload (lit "Hello World from unknown environment!")
                                (lit "svc-1")) |}
  = body {| statusCode := 200;
            body := json_dumps (payload (greeting (lit "unknown")) (lit "svc-1")) |}
  /\ configured world_unset = configured (world_with (lit "unknown"))
  /\ lit "svc-1" = lit "svc-1".
Proof.
  split; [reflexivity |].
  apply (lambda_handler_body_injective tt (PyInt 7)
           (context_named (lit "svc-1"))
           {| attrs := <[ "memory_limit_in_mb"%string := Json (PyInt 128) ]>
                         {[ "function_name"%string := Json (PyStr (lit "svc-1")) ]} |}
           world_unset (world_with (lit "unknown"))
           (logged world_unset) (logged (world_with (lit "unknown")))
           {| statusCode := 200;
              body := json_dumps (payload (lit "Hello World from unknown environment!")
                                    (lit "svc-1")) |}
           {| statusCode := 200;
              body := json_dumps (payload (greeting (lit "unknown")) (lit "svc-1")) |}
           (lit "svc-1") (lit "svc-1"));
    first [reflexivity | apply lit_wf].
Defined.

(** X8. The handler does not tell a code point above U+FFFF from its two
    surrogate halves: a [function_name] that holds the code point [c] and
    one that holds, at the same place, the high and the low half of [c] as
    two code points are different strings for which the handler does the
    same, outcome and world; so whenever it returns, the two responses are
    equal. *)
Theorem lambda_handler_body_collision
  {Event : Type} (event : Event) (c1 c2 : pyobject) (w : World) (a b : pystr) (c : N) :
  0x10000 <= c < 0x110000 ->
  attrs c1 !! "function_name"%string = Some (Json (PyStr (a ++ [c] ++ b))) ->
  attrs c2 !! "function_name"%string
  = Some (Json (PyStr (a ++ [high_half c; low_half c] ++ b))) ->
  a ++ [c] ++ b <> a ++ [high_half c; low_half c] ++ b
  /\ lambda_handler event c1 w = lambda_handler event c2 w
  /\ (encodable (stdout w) (greeting (configured w)) = true ->
      exists (r : response) (w' : World),
        lambda_handler event c1 w = (Ok r, w') /\ lambda_handler event c2 w = (Ok r, w')).
Proof.
  intros Hc H1 H2.
  assert (Hesc : escape (a ++ [c] ++ b) = escape (a ++ [high_half c; low_half c] ++ b)).
  { unfold escape. rewrite !flat_map_app. do 2 f_equal.
    cbn [flat_map]. rewrite !app_nil_r.
    rewrite escape_char_astral by lia.
    rewrite !escape_char_surrogate; [reflexivity | |].
    + pose proof (low_half_surrogate c) as Hl. apply surrogate_range in Hl. lia.
    + destruct (high_half_surrogate c Hc) as [Hh _]. apply surrogate_range in Hh. lia. }
  assert (Hsame : lambda_handler event c1 w = lambda_handler event c2 w).
  { rewrite !lambda_handler_run, H1, H2.
    destruct (encodable (stdout w) (greeting (configured w))); [| reflexivity].
    rewrite !json_dumps_two_fields. unfold two_fields_text. rewrite Hesc. reflexivity. }
  split; [| split].
  - intros Heq. apply (f_equal (@length N)) in Heq.
    rewrite !length_app in Heq. cbn [length] in Heq. lia.
  - exact Hsame.
  - intros He. rewrite <- Hsame.
    rewrite (lambda_handler_returns event c1 w _ He H1). eexists _, _. split; reflexivity.
Qed.

Lemma lambda_handler_body_collision_witness :
  lit "fn-" ++ [0x1f600] ++ lit "-1" <> lit "fn-" ++ [high_half 0x1f600; low_half 0x1f600] ++ lit "-1"
  /\ lambda_handler tt (context_named (lit "fn-" ++ [0x1f600] ++ lit "-1")) world_unset
     = lambda_handler tt
         (context_named (lit "fn-" ++ [high_half 0x1f600; low_half 0x1f600] ++ lit "-1"))
         world_unset
  /\ (encodable (stdout world_unset) (greeting (configured world_unset)) = true ->
      exists (r : response) (w' : World),
        lambda_handler tt (context_named (lit "fn-" ++ [0x1f600] ++ lit "-1")) world_unset
        = (Ok r, w')
        /\ lambda_handler tt
             (context_named (lit "fn-" ++ [high_half 0x1f600; low_half 0x1f600] ++ lit "-1"))
             world_unset
           = (Ok r, w')).
Proof.
  apply (lambda_handler_body_collision tt
           (context_named (lit "fn-" ++ [0x1f600] ++ lit "-1"))
           (context_named (lit "fn-" ++ [high_half 0x1f600; low_half 0x1f600] ++ lit "-1"))
           world_unset (lit "fn-") (lit "-1") 0x1f600);
    first [reflexivity | lia].
Defined.

(** X9. [test_hello_world] passes from every starting world, whatever
    [ENVIRONMENT] held before, and it does not restore the variable: the
    world it leaves has [ENVIRONMENT] set to ["test"], every other variable
    and the standard output as before. *)
Theorem test_hello_world_passes (w : World) :
  test_hello_world w
  = (Passed tt,
     {| environ := <["ENVIRONMENT"%string := lit "test"]> (environ w); stdout := stdout w |}).
Proof.
  unfold test_hello_world. unfold tbind at 1. rewrite os_environ_set_test.
  unfold tbind, call. rewrite hello_world_run. unfold configured. cbn [environ].
  rewrite lookup_insert_eq. reflexivity.
Qed.

(** X10. [test_lambda_handler] passes from every starting world: the
    status is 200, the body parses, both keys are present and
    [function_name] is ["test-function"].  It leaves [ENVIRONMENT] set to
    ["test"] and one more line, the greeting for ["test"], on the standard
    output. *)
Theorem test_lambda_handler_passes (w : World) :
  test_lambda_handler w
  = (Passed tt,
     {| environ := <["ENVIRONMENT"%string := lit "test"]> (environ w);
        stdout := {| encoding := encoding (stdout w);
                     errors := errors (stdout w);
                     written := written (stdout w)
                                ++ lit "Hello World from test environment!" ++ [10] |} |}).
Proof.
  unfold test_lambda_handler. unfold tbind at 1. rewrite os_environ_set_test.
  unfold tbind at 1. unfold call.
  rewrite (lambda_handler_returns _ _ _ (PyStr (lit "test-function")));
    [| unfold configured; cbn [environ]; rewrite lookup_insert_eq;
       apply ascii_encodable; reflexivity
     | reflexivity].
  unfold logged, configured. cbn [environ stdout encoding errors written].
  rewrite lookup_insert_eq. unfold tbind. cbn [statusCode body].
  change (assertEqual_int 200 200) with (tret (A := unit) tt). unfold tret at 1.
  unfold loads.
  change (greeting (lit "test")) with (lit "Hello World from test environment!").
  fold (payload (lit "Hello World from test environment!") (lit "test-function")).
  rewrite test_body_parsed. reflexivity.
Qed.



(** X12. In every world the string [hello_world()] returns contains
    ["Hello World"], and it contains the value of [ENVIRONMENT], or
    ["unknown"] when the variable is unset, followed by [" environment"]:
    the first assertion of [test_hello_world] cannot fail, and the second
    holds whenever the configured value ends in ["test"]. *)
Theorem hello_world_contains (w : World) :
  exists message : pystr,
    hello_world w = (Ok message, w)
    /\ substring (lit "Hello World") message = true
    /\ substring (configured w ++ lit " environment") message = true.
Proof.
  rewrite hello_world_run. eexists. split; [reflexivity |]. unfold greeting. split.
  - change (lit "Hello World from ") with ([] ++ lit "Hello World" ++ lit " from ").
    rewrite <- !app_assoc. apply substring_app.
  - change (lit " environment!") with (lit " environment" ++ lit "!").
    rewrite (app_assoc (configured w)). apply substring_app.
Qed.
